(** * A shallow embedding of [weather.py]

    The program is a linear pipeline: build the request URL from the city
    words, the unit flag and the API key of [secrets.ini]; fetch it; decode
    the JSON body; print one coloured line.

    Conventions of the embedding.
    - A Python [str] is a Rocq [string] holding its UTF-8 encoding: one
      [ascii] per byte.  [quote_plus] encodes a [str] to UTF-8 before it
      escapes it, so in this representation the encoding step is the
      identity.  The number of characters of a [str] is the number of bytes
      that are not UTF-8 continuation bytes ([py_len]).
    - Python integers are [Z].
    - Calls with effects are recorded as a list of [event]s, next to an
      [outcome] that tells how the call ended: a returned value, an exception
      that nobody caught, or [sys.exit] with its message. *)

From Stdlib Require Import String Ascii List ZArith Lia Bool Arith DecimalString.

Set Warnings "-register-all".
Set Warnings "-notation-overridden".
Set Warnings "-notation-for-abbreviation".

Import ListNotations.

Local Open Scope string_scope.
Local Open Scope nat_scope.

(** ** Strings as Python uses them *)

Module PyStr.

(** [c in s] for a one-character [c]. *)
Fixpoint contains_char (c : ascii) (s : string) : bool :=
  match s with
  | EmptyString => false
  | String d r => Ascii.eqb c d || contains_char c r
  end.

(** [s.replace(a, b)] for one-character [a] and [b]. *)
Fixpoint replace_char (a b : ascii) (s : string) : string :=
  match s with
  | EmptyString => EmptyString
  | String d r => String (if Ascii.eqb d a then b else d) (replace_char a b r)
  end.

(** [sep.join(words)]. *)
Fixpoint join (sep : string) (words : list string) : string :=
  match words with
  | [] => EmptyString
  | w :: rest =>
      match rest with
      | [] => w
      | _ :: _ => w ++ sep ++ join sep rest
      end
  end.

(** [s.startswith(p)]. *)
Fixpoint startswith (p s : string) : bool :=
  match p with
  | EmptyString => true
  | String a p' =>
      match s with
      | EmptyString => false
      | String b s' => Ascii.eqb a b && startswith p' s'
      end
  end.

(** [p in s] for strings: [p] occurs in [s] as a contiguous block. *)
Fixpoint contains (p s : string) : bool :=
  startswith p s ||
  match s with
  | EmptyString => false
  | String _ r => contains p r
  end.

(** A UTF-8 continuation byte has the form 10xxxxxx. *)
Definition is_continuation (c : ascii) : bool :=
  let n := nat_of_ascii c in (128 <=? n) && (n <? 192).

(** [len(s)]: the number of characters (code points) of the text. *)
Fixpoint py_len (s : string) : nat :=
  match s with
  | EmptyString => 0
  | String c r => (if is_continuation c then 0 else 1) + py_len r
  end.

Fixpoint spaces (n : nat) : string :=
  match n with
  | O => EmptyString
  | S k => String " " (spaces k)
  end.

(** [format(s, "^width")]: centre [s] in [width] columns; when the padding
    is odd the extra blank goes to the right. *)
Definition center (width : nat) (s : string) : string :=
  let pad := width - py_len s in
  spaces (pad / 2) ++ s ++ spaces (pad - pad / 2).

(** [str(n)] for an integer. *)
Definition str_int (n : Z) : string := NilZero.string_of_int (Z.to_int n).

Definition is_ascii (c : ascii) : bool := nat_of_ascii c <? 128.

Definition ascii_upper (c : ascii) : ascii :=
  let n := nat_of_ascii c in
  if (97 <=? n) && (n <=? 122) then ascii_of_nat (n - 32) else c.

Definition ascii_lower (c : ascii) : ascii :=
  let n := nat_of_ascii c in
  if (65 <=? n) && (n <=? 90) then ascii_of_nat (n + 32) else c.

Fixpoint all_ascii (s : string) : bool :=
  match s with
  | EmptyString => true
  | String c r => is_ascii c && all_ascii r
  end.

Fixpoint map_chars (f : ascii -> ascii) (s : string) : string :=
  match s with
  | EmptyString => EmptyString
  | String c r => String (f c) (map_chars f r)
  end.

End PyStr.

Import PyStr.

(** ** [urllib.parse]: the part [build_weather_query] calls

    Transcribed from CPython's [urllib/parse.py]. *)

Module UrlParse.

(** [_ALWAYS_SAFE]: letters, digits and the four marks [_.-~]. *)
Definition always_safe (c : ascii) : bool :=
  let n := nat_of_ascii c in
  ((65 <=? n) && (n <=? 90)) || ((97 <=? n) && (n <=? 122)) ||
  ((48 <=? n) && (n <=? 57)) ||
  (n =? 95) || (n =? 46) || (n =? 45) || (n =? 126).

Definition hex_digit (n : nat) : ascii :=
  if n <? 10 then ascii_of_nat (48 + n) else ascii_of_nat (55 + n).

(** ['%{:02X}'.format(b)]. *)
Definition percent_escape (c : ascii) : string :=
  let n := nat_of_ascii c in
  String "%" (String (hex_digit (n / 16)) (String (hex_digit (n mod 16)) EmptyString)).

(** [_Quoter.__missing__]: a safe byte stands for itself. *)
Definition quoter (safe : string) (c : ascii) : string :=
  if always_safe c || contains_char c safe
  then String c EmptyString
  else percent_escape c.

(** [quote_from_bytes(bs, safe)]: the escapes of the bytes, joined. *)
Fixpoint quote_from_bytes (safe : string) (bs : string) : string :=
  match bs with
  | EmptyString => EmptyString
  | String c r => quoter safe c ++ quote_from_bytes safe r
  end.

(** [quote(string, safe)]: encode to UTF-8, then [quote_from_bytes]. *)
Definition quote (safe : string) (s : string) : string :=
  quote_from_bytes safe s.

(** [quote_plus(string)]: without a blank it is [quote]; with one, blanks
    are kept by [quote] and then turned into [+]. *)
Definition quote_plus (s : string) : string :=
  if negb (contains_char " " s)
  then quote EmptyString s
  else replace_char " " "+" (quote " " s).

Definition hex_value (c : ascii) : option nat :=
  let n := nat_of_ascii c in
  if (48 <=? n) && (n <=? 57) then Some (n - 48)
  else if (65 <=? n) && (n <=? 70) then Some (n - 55)
  else if (97 <=? n) && (n <=? 102) then Some (n - 87)
  else None.

(** [unquote(string)]: every [%XY] with two hexadecimal digits becomes the
    byte it names; a [%] not followed by two such digits stays. *)
Fixpoint unquote (s : string) : string :=
  match s with
  | EmptyString => EmptyString
  | String c r =>
      if Ascii.eqb c "%"
      then match r with
           | String h (String l r') =>
               match hex_value h, hex_value l with
               | Some a, Some b => String (ascii_of_nat (16 * a + b)) (unquote r')
               | _, _ => String c (unquote r)
               end
           | _ => String c (unquote r)
           end
      else String c (unquote r)
  end.

(** [unquote_plus(string)]: [+] back to a blank, then [unquote]. *)
Definition unquote_plus (s : string) : string :=
  unquote (replace_char "+" " " s).

(** The text before and after the first [sep] of [s] ([str.partition]):
    [None] when [sep] does not occur. *)
Fixpoint partition (sep : ascii) (s : string) : option (string * string) :=
  match s with
  | EmptyString => None
  | String c r =>
      if Ascii.eqb c sep then Some (EmptyString, r)
      else match partition sep r with
           | Some (a, b) => Some (String c a, b)
           | None => None
           end
  end.

(** [s.split(sep)]. *)
Fixpoint split (sep : ascii) (s : string) : list string :=
  match s with
  | EmptyString => [EmptyString]
  | String c r =>
      if Ascii.eqb c sep then EmptyString :: split sep r
      else match split sep r with
           | w :: ws => String c w :: ws
           | [] => [String c EmptyString]
           end
  end.

(** The first pair of [pairs] whose name is [key]. *)
Fixpoint first_value (key : string) (pairs : list string) : option string :=
  match pairs with
  | [] => None
  | p :: rest =>
      match partition "=" p with
      | Some (k, v) => if String.eqb k key then Some v else first_value key rest
      | None => first_value key rest
      end
  end.

(** What a server reads as the parameter [key] of [url]: the query is the
    text after the first [?], its fields are separated by [&], a field is
    [name=value], and the value of the first field named [key] is decoded
    with [unquote_plus]. *)
Definition query_value (key : string) (url : string) : option string :=
  match partition "?" url with
  | Some (_, query) =>
      match first_value key (split "&" query) with
      | Some v => Some (unquote_plus v)
      | None => None
      end
  | None => None
  end.

End UrlParse.

Import UrlParse.

(** ** Outcomes, events and the monad of the program *)

(** The key of a failed lookup: [d["name"]] or [l[0]]. *)
Inductive key : Type :=
| KStr (s : string)
| KInt (n : Z).

(** The exceptions the program can meet.  [HTTPError] carries the status
    code; [OtherError] stands for what the libraries raise besides
    ([URLError], [UnicodeDecodeError], ...). *)
Inductive exn : Type :=
| KeyError (k : key)
| IndexError
| TypeError
| AttributeError
| HTTPError (code : Z)
| JSONDecodeError
| OtherError (name : string).

(** How a call ends: it returns, an exception leaves it, or [sys.exit(msg)]
    ends the process with [msg]. *)
Inductive outcome (A : Type) : Type :=
| Returned (a : A)
| Raised (e : exn)
| Exited (msg : string).

Arguments Returned {A} a.
Arguments Raised {A} e.
Arguments Exited {A} msg.

(** Modelled from the spec: the [style] module is not among the sources.  The
    spec lists what it offers: a fixed display width ([PADDING], a parameter
    below) and control sequences for reverse video, reset and the foreground
    colours; [style.change_colour] is recorded as an event. *)
Inductive style_code : Type :=
| REVERSE | RESET | RED | CYAN | BLUE | WHITE | YELLOW.

(** What the program does to the world, in order. *)
Inductive event : Type :=
| ConfigRead (file : string)        (* config.read(file) *)
| Urlopen (url : string)            (* request.urlopen(url) *)
| ResponseRead                      (* response.read() *)
| JsonLoads (data : string)         (* json.loads(data) *)
| ChangeColour (c : style_code)     (* style.change_colour(c) *)
| Print (text : string).            (* print(...), the end string included *)

Definition M (A : Type) : Type := (list event * outcome A)%type.

Definition ret {A} (a : A) : M A := ([], Returned a).

Definition bind {A B} (m : M A) (k : A -> M B) : M B :=
  match m with
  | (t, Returned a) => let (t', o) := k a in ((t ++ t')%list, o)
  | (t, Raised e) => (t, Raised e)
  | (t, Exited msg) => (t, Exited msg)
  end.

Definition tell (e : event) : M unit := ([e], Returned tt).
Definition raise {A} (e : exn) : M A := ([], Raised e).
Definition sys_exit {A} (msg : string) : M A := ([], Exited msg).
Definition lift {A} (o : outcome A) : M A := ([], o).

Notation "x <- m ;; k" := (bind m (fun x => k))
  (at level 61, m at next level, right associativity).
Notation "m ;;; k" := (bind m (fun _ => k))
  (at level 61, right associativity).

Definition TAB : string := String (ascii_of_nat 9) EmptyString.
Definition NEWLINE : string := String (ascii_of_nat 10) EmptyString.

(** [range(start, stop)]. *)
Record py_range : Type := range { start : Z; stop : Z }.

(** This is the base URL that will be used in all API calls. *)
Definition BASE_WEATHER_API_URL : string :=
  "http://api.openweathermap.org/data/2.5/weather".

(** Weather Condition Codes *)
Definition THUNDERSTORM := range 200 300.
Definition DRIZZLE := range 300 400.
Definition RAIN := range 500 600.
Definition SNOW := range 600 700.
Definition ATMOSPHERE := range 700 800.
Definition CLEAR := range 800 801.
Definition CLOUDY := range 801 900.

(** What [ConfigParser] holds after [config.read]: for each section its
    options.  A file that does not exist leaves it empty. *)
Definition config : Type := list (string * list (string * string)).

Fixpoint assoc {V : Type} (k : string) (d : list (string * V)) : option V :=
  match d with
  | [] => None
  | (k', v) :: rest => if String.eqb k' k then Some v else assoc k rest
  end.

(** [d[k] = v] on a dict kept as an association list. *)
Fixpoint assoc_set {V : Type} (k : string) (v : V) (d : list (string * V))
  : list (string * V) :=
  match d with
  | [] => [(k, v)]
  | (k', v') :: rest =>
      if String.eqb k' k then (k, v) :: rest else (k', v') :: assoc_set k v rest
  end.

(** ** The program *)

Section Program.

(** Python's [float] and the two things the program does with one: print
    it ([str]) and compare it with the integers of a [range]
    ([float_int f] is the integer [f] equals, if any). *)
Variable pyfloat : Type.
Variable float_str : pyfloat -> string.
Variable float_int : pyfloat -> option Z.

(** What [json.loads] returns. *)
Inductive json : Type :=
| JNull
| JBool (b : bool)
| JInt (n : Z)
| JFloat (f : pyfloat)
| JStr (s : string)
| JArr (items : list json)
| JObj (fields : list (string * json)).

(** [str] of a list or of a dict, and [capitalize] of a text with
    characters outside ASCII (the Unicode case tables): left to the Python
    runtime. *)
Variable container_str : json -> string.
Variable unicode_capitalize : string -> string.

(** [style.PADDING]. *)
Variable PADDING : nat.

(** The world the program runs in: the content of [secrets.ini], what
    [urlopen] answers for a URL (the body, or the exception it raises) and
    what [json.loads] makes of a body. *)
Variable secrets : config.
Variable urlopen : string -> string + exn.
Variable json_loads : string -> json + exn.

(** *** Built-ins on JSON values *)

(** [v[k]] for a text key [k]. *)
Definition getitem (v : json) (k : string) : outcome json :=
  match v with
  | JObj fields =>
      match assoc k fields with
      | Some x => Returned x
      | None => Raised (KeyError (KStr k))
      end
  | _ => Raised TypeError
  end.

(** The first character of a text: its first byte and the continuation
    bytes that follow. *)
Fixpoint continuation_prefix (s : string) : string :=
  match s with
  | EmptyString => EmptyString
  | String c r => if is_continuation c then String c (continuation_prefix r) else EmptyString
  end.

(** [v[0]]. *)
Definition getitem0 (v : json) : outcome json :=
  match v with
  | JArr items =>
      match items with
      | x :: _ => Returned x
      | [] => Raised IndexError
      end
  | JStr s =>
      match s with
      | String c r => Returned (JStr (String c (continuation_prefix r)))
      | EmptyString => Raised IndexError
      end
  | JObj _ => Raised (KeyError (KInt 0))
  | _ => Raised TypeError
  end.

(** [v in r] for a [range] [r]: arithmetic for an [int] (and a [bool],
    which is one), comparison with the members for anything else. *)
Definition in_range (v : json) (r : py_range) : bool :=
  let mem (n : Z) := ((start r <=? n) && (n <? stop r))%Z in
  match v with
  | JInt n => mem n
  | JBool b => mem (if b then 1 else 0)%Z
  | JFloat f => match float_int f with Some n => mem n | None => false end
  | _ => false
  end.

(** [str(v)], which is what [f"{v}"] prints. *)
Definition py_str (v : json) : string :=
  match v with
  | JNull => "None"
  | JBool b => if b then "True" else "False"
  | JInt n => str_int n
  | JFloat f => float_str f
  | JStr s => s
  | JArr _ | JObj _ => container_str v
  end.

(** [f"{v:^{width}}"]: texts and numbers are centred (a [bool] as the
    integer it is); [None], lists and dicts accept no format. *)
Definition format_center (width : nat) (v : json) : outcome string :=
  match v with
  | JStr s => Returned (center width s)
  | JInt n => Returned (center width (str_int n))
  | JBool b => Returned (center width (if b then "1" else "0"))
  | JFloat f => Returned (center width (float_str f))
  | JNull | JArr _ | JObj _ => Raised TypeError
  end.

(** [s.capitalize()]: first character upper case, the rest lower case. *)
Definition capitalize (s : string) : string :=
  if all_ascii s
  then match s with
       | EmptyString => EmptyString
       | String c r => String (ascii_upper c) (map_chars ascii_lower r)
       end
  else unicode_capitalize s.

(** [v.capitalize()]: only a text has the method. *)
Definition capitalize_method (v : json) : outcome string :=
  match v with
  | JStr s => Returned (capitalize s)
  | _ => Raised AttributeError
  end.

Definition change_colour (c : style_code) : M unit := tell (ChangeColour c).

(** [print(text, end=e)]. *)
Definition print (text e : string) : M unit := tell (Print (text ++ e)).

(** *** [weather.py] *)

(** Fetch the API key from your configuration file. *)
Definition _get_api_key : M string :=
  tell (ConfigRead "secrets.ini") ;;;
  match assoc "openweather" secrets with
  | None => raise (KeyError (KStr "openweather"))
  | Some section =>
      match assoc "api_key" section with
      | None => raise (KeyError (KStr "api_key"))
      | Some value => ret value
      end
  end.

(** Builds the URL for an API request to OpenWeather's weather API. *)
Definition build_weather_query (city_input : list string) (imperial : bool)
  : M string :=
  api_key <- _get_api_key ;;
  let city_name := join " " city_input in
  let url_encoded_city_name := quote_plus city_name in
  let units := if imperial then "imperial" else "metric" in
  let url :=
    BASE_WEATHER_API_URL ++ "?q=" ++ url_encoded_city_name ++
    "&units=" ++ units ++ "&appid=" ++ api_key in
  ret url.

(** Makes an API request to a URL and returns the data as a Python object. *)
Definition get_weather_data (query_url : string) : M json :=
  tell (Urlopen query_url) ;;;
  match urlopen query_url with
  | inr (HTTPError code) =>
      if (code =? 401)%Z then
        sys_exit "Access denied.  Check your API key."
      else if (code =? 404)%Z then
        sys_exit "Can't find weather data for this city."
      else
        sys_exit ("Something went wrong... (" ++ str_int code ++ ")")
  | inr e => raise e
  | inl data =>
      tell ResponseRead ;;;
      tell (JsonLoads data) ;;;
      match json_loads data with
      | inl v => ret v
      | inr JSONDecodeError => sys_exit "Couldn't read the server response."
      | inr e => raise e
      end
  end.

(** The [if]/[elif] chain of [display_weather_info]. *)
Definition select_colour (weather_id : json) : style_code :=
  if in_range weather_id THUNDERSTORM then RED
  else if in_range weather_id DRIZZLE then CYAN
  else if in_range weather_id RAIN then BLUE
  else if in_range weather_id SNOW then WHITE
  else if in_range weather_id ATMOSPHERE then BLUE
  else if in_range weather_id CLEAR then YELLOW
  else if in_range weather_id CLOUDY then WHITE
  else RESET.

(** The two characters the source has between the temperature and the unit
    letter: U+00C2 and U+00B0 (the bytes C3 82 C2 B0 of the file). *)
Definition DEGREE_LITERAL : string := "Â°".

(** Prints formatted weather information about a city. *)
Definition display_weather_info (weather_data : json) (imperial : bool)
  : M unit :=
  city <- lift (getitem weather_data "name") ;;
  w <- lift (getitem weather_data "weather") ;;
  w0 <- lift (getitem0 w) ;;
  weather_id <- lift (getitem w0 "id") ;;
  w' <- lift (getitem weather_data "weather") ;;
  w0' <- lift (getitem0 w') ;;
  weather_description <- lift (getitem w0' "description") ;;
  m <- lift (getitem weather_data "main") ;;
  temperature <- lift (getitem m "temp") ;;
  s <- lift (getitem weather_data "sys") ;;
  country <- lift (getitem s "country") ;;
  change_colour REVERSE ;;;
  text <- lift (format_center PADDING city) ;;
  print text EmptyString ;;;
  change_colour RESET ;;;
  change_colour (select_colour weather_id) ;;;
  capitalized <- lift (capitalize_method weather_description) ;;
  print (TAB ++ center PADDING capitalized) " " ;;;
  change_colour RESET ;;;
  print ("(" ++ py_str temperature ++ DEGREE_LITERAL ++
         (if imperial then "F" else "C") ++ ")") NEWLINE.

(** The two phases of [display_weather_info], for the proofs: the five reads
    of the response, in the order of the source, and the printing of what
    was read. *)
Definition obind {A B : Type} (o : outcome A) (k : A -> outcome B) : outcome B :=
  match o with
  | Returned a => k a
  | Raised e => Raised e
  | Exited msg => Exited msg
  end.

Record fields_read : Type := Fields {
  f_city : json;
  f_weather_id : json;
  f_weather_description : json;
  f_temperature : json;
  f_country : json
}.

Definition read_fields (weather_data : json) : outcome fields_read :=
  obind (getitem weather_data "name") (fun city =>
  obind (getitem weather_data "weather") (fun w =>
  obind (getitem0 w) (fun w0 =>
  obind (getitem w0 "id") (fun weather_id =>
  obind (getitem w0 "description") (fun weather_description =>
  obind (getitem weather_data "main") (fun m =>
  obind (getitem m "temp") (fun temperature =>
  obind (getitem weather_data "sys") (fun s =>
  obind (getitem s "country") (fun country =>
  Returned (Fields city weather_id weather_description temperature country)))))))))).

Definition print_fields (r : fields_read) (imperial : bool) : M unit :=
  change_colour REVERSE ;;;
  text <- lift (format_center PADDING (f_city r)) ;;
  print text EmptyString ;;;
  change_colour RESET ;;;
  change_colour (select_colour (f_weather_id r)) ;;;
  capitalized <- lift (capitalize_method (f_weather_description r)) ;;
  print (TAB ++ center PADDING capitalized) " " ;;;
  change_colour RESET ;;;
  print ("(" ++ py_str (f_temperature r) ++ DEGREE_LITERAL ++
         (if imperial then "F" else "C") ++ ")") NEWLINE.

(** The arguments [read_user_cli_args] returns. *)
Record cli_args : Type := Namespace { city : list string; imperial : bool }.

(** The body of [if __name__ == "__main__"], after the arguments are read. *)
Definition main (user_args : cli_args) : M unit :=
  query_url <- build_weather_query (city user_args) (imperial user_args) ;;
  weather_data <- get_weather_data query_url ;;
  display_weather_info weather_data (imperial user_args).

(** The text written by [print], the colour changes left out. *)
Fixpoint printed (evs : list event) : string :=
  match evs with
  | [] => EmptyString
  | Print text :: rest => text ++ printed rest
  | _ :: rest => printed rest
  end.

End Program.

Arguments JNull {pyfloat}.
Arguments JBool {pyfloat} b.
Arguments JInt {pyfloat} n.
Arguments JFloat {pyfloat} f.
Arguments JStr {pyfloat} s.
Arguments JArr {pyfloat} items.
Arguments JObj {pyfloat} fields.
Arguments getitem {pyfloat} v k.
Arguments getitem0 {pyfloat} v.
Arguments in_range {pyfloat} float_int v r.
Arguments py_str {pyfloat} float_str container_str v.
Arguments format_center {pyfloat} float_str width v.
Arguments capitalize_method {pyfloat} unicode_capitalize v.
Arguments select_colour {pyfloat} float_int weather_id.
Arguments get_weather_data {pyfloat} urlopen json_loads query_url.
Arguments display_weather_info {pyfloat} float_str float_int container_str
  unicode_capitalize PADDING weather_data imperial.
Arguments Fields {pyfloat}.
Arguments f_city {pyfloat} f.
Arguments f_weather_id {pyfloat} f.
Arguments f_weather_description {pyfloat} f.
Arguments f_temperature {pyfloat} f.
Arguments f_country {pyfloat} f.
Arguments read_fields {pyfloat} weather_data.
Arguments print_fields {pyfloat} float_str float_int container_str
  unicode_capitalize PADDING r imperial.
Arguments main {pyfloat} float_str float_int container_str unicode_capitalize
  PADDING secrets urlopen json_loads user_args.

(** ** Definitions used by the statements and their proofs

    Besides the helpers of the proofs, a small runtime to run the program
    in: a float is kept as the text Python prints for it, and the display is
    20 columns wide. *)

(** The response of the example: Paris, clear sky, 21.5 degrees. *)
Definition paris {pyfloat : Type} (t : pyfloat) : json pyfloat :=
  JObj [("name", JStr "Paris");
        ("weather", JArr [JObj [("id", JInt 800); ("description", JStr "clear sky")]]);
        ("main", JObj [("temp", JFloat t)]);
        ("sys", JObj [("country", JStr "FR")])].

(** Every byte of a text passes the test [P]. *)
Fixpoint all_chars (P : ascii -> bool) (s : string) : bool :=
  match s with
  | EmptyString => true
  | String c r => P c && all_chars P r
  end.

(** What [quote_plus] writes for one byte. *)
Definition plus_byte (c : ascii) : string :=
  if Ascii.eqb c " " then "+" else quoter EmptyString c.

Fixpoint flat_map_str (f : ascii -> string) (s : string) : string :=
  match s with
  | EmptyString => EmptyString
  | String c r => f c ++ flat_map_str f r
  end.

(** The bytes [quote_plus] can write: the safe ones, [+] and [%]. *)
Definition written (c : ascii) : bool :=
  always_safe c || Ascii.eqb c "+" || Ascii.eqb c "%".

(** The URL [build_weather_query] puts together. *)
Definition weather_url (city_name : string) (imperial : bool) (api_key : string)
  : string :=
  BASE_WEATHER_API_URL ++ "?q=" ++ quote_plus city_name ++
  "&units=" ++ (if imperial then "imperial" else "metric") ++
  "&appid=" ++ api_key.

Definition demo_key : string := "0123456789abcdef0123456789abcdef".
Definition demo_section : list (string * string) := [("api_key", demo_key)].
Definition demo_secrets : config := [("openweather", demo_section)].

(** A key that holds the text of a query field. *)
Definition field_secrets : config :=
  [("openweather", [("api_key", "k&units=imperial")])].

(** A key with a blank in [secrets.ini] reaches the URL as it is. *)
Definition blank_secrets : config := [("openweather", [("api_key", "my key")])].

Definition demo_float : Type := string.
Definition demo_float_str (f : demo_float) : string := f.
Definition demo_float_int (f : demo_float) : option Z := None.
Definition demo_container_str (v : json demo_float) : string := "[...]".
Definition demo_capitalize (s : string) : string := s.
Definition demo_padding : nat := 20.

Definition demo_present :=
  display_weather_info demo_float_str demo_float_int demo_container_str
                       demo_capitalize demo_padding.

(** A server that answers every request with status 503. *)
Definition unavailable (url : string) : string + exn := inr (HTTPError 503).

(** A server that answers every request with a page that is no JSON. *)
Definition html_page : string := "<html>maintenance</html>".
Definition answers_html (url : string) : string + exn := inl html_page.
Definition strict_loads (data : string) : json demo_float + exn :=
  inr JSONDecodeError.

(** A thunderstorm over Quito, reported with a second entry. *)
Definition storm_entry : json demo_float :=
  JObj [("id", JInt 201); ("description", JStr "thunderstorm with rain")].
Definition storm_fields : list (string * json demo_float) :=
  [("name", JStr "Quito");
   ("weather", JArr [storm_entry; JObj [("id", JInt 500); ("description", JStr
       "light rain")]]);
   ("main", JObj [("temp", JInt 14)]);
   ("sys", JObj [("country", JStr "EC")])].


(** A response whose [sys] object has no [country]. *)
Definition stateless_fields : list (string * json demo_float) :=
  [("name", JStr "Quito");
   ("weather", JArr [storm_entry]);
   ("main", JObj [("temp", JInt 14)]);
   ("sys", JObj [("sunrise", JInt 1700000000)])].

(** The colour changes of a trace, in order. *)
Fixpoint colours (evs : list event) : list style_code :=
  match evs with
  | [] => []
  | ChangeColour c :: rest => c :: colours rest
  | _ :: rest => colours rest
  end.

(** The requests of a trace, in order. *)
Fixpoint requests (evs : list event) : list string :=
  match evs with
  | [] => []
  | Urlopen url :: rest => url :: requests rest
  | _ :: rest => requests rest
  end.

(** A response whose city name is [null]. *)
Definition nameless_fields : list (string * json demo_float) :=
  [("name", JNull);
   ("weather", JArr [storm_entry]);
   ("main", JObj [("temp", JInt 14)]);
   ("sys", JObj [("country", JStr "EC")])].

(** A response whose description is a number. *)
Definition undescribed_fields : list (string * json demo_float) :=
  [("name", JStr "Quito");
   ("weather", JArr [JObj [("id", JInt 201); ("description", JInt 7)]]);
   ("main", JObj [("temp", JInt 14)]);
   ("sys", JObj [("country", JStr "EC")])].

(** A network that is down, and a decoder that fails on the encoding. *)
Definition unreachable (url : string) : string + exn := inr (OtherError "URLError").
Definition undecodable (data : string) : json demo_float + exn :=
  inr (OtherError "UnicodeDecodeError").

(** A server that answers with status 200 and the four bytes FF 61 62 63,
    which are no UTF-8 text: [json.loads] raises [UnicodeDecodeError] on
    them.  The decoder [undecodable] above is the part of [json.loads] that
    matters on such a body. *)
Definition bad_utf8_body : string := String (ascii_of_nat 255) "abc".
Definition answers_bad_bytes (url : string) : string + exn := inl bad_utf8_body.

(** A server that answers with the storm over Quito. *)
Definition storm_body : string := "{...}".
Definition answers_storm (url : string) : string + exn := inl storm_body.
Definition loads_storm (data : string) : json demo_float + exn :=
  inl (JObj storm_fields).

(** * Properties *)

Example quote_plus_new_york : quote_plus "New York" = "New+York".
Proof. reflexivity. Qed.

Example quote_plus_marks :
  quote_plus "a%20b c+d&e=f~_.-/" = "a%2520b+c%2Bd%26e%3Df~_.-%2F".
Proof. reflexivity. Qed.

Example center_ab : center 5 "ab" = " ab  ".
Proof. reflexivity. Qed.

Example str_int_neg : str_int (-5) = "-5".
Proof. reflexivity. Qed.

Lemma DEGREE_LITERAL_bytes :
  map nat_of_ascii (list_ascii_of_string DEGREE_LITERAL) = [195; 130; 194; 176].
Proof. reflexivity. Qed.

(** ** Facts about texts *)

Lemma append_assoc_s (a b c : string) : (a ++ b) ++ c = a ++ (b ++ c).
Proof. induction a as [|x a IH]; simpl; [reflexivity | now rewrite IH]. Qed.

Lemma append_empty_r (a : string) : a ++ EmptyString = a.
Proof. induction a as [|x a IH]; simpl; [reflexivity | now rewrite IH]. Qed.

Lemma contains_char_app (c : ascii) (a b : string) :
  contains_char c (a ++ b) = contains_char c a || contains_char c b.
Proof.
  induction a as [|x a IH]; simpl; [reflexivity|].
  rewrite IH. now rewrite orb_assoc.
Qed.

Lemma replace_char_app (x y : ascii) (a b : string) :
  replace_char x y (a ++ b) = replace_char x y a ++ replace_char x y b.
Proof. induction a as [|c a IH]; simpl; [reflexivity | now rewrite IH]. Qed.

Lemma startswith_app (p s : string) : startswith p (p ++ s) = true.
Proof.
  induction p as [|c p IH]; simpl; [reflexivity|].
  now rewrite Ascii.eqb_refl, IH.
Qed.

Lemma contains_app_r (p a b : string) :
  contains p b = true -> contains p (a ++ b) = true.
Proof.
  intros H. induction a as [|c a IH]; simpl; [exact H|].
  rewrite IH. apply orb_true_r.
Qed.

Lemma startswith_app_l (p a b : string) :
  startswith p a = true -> startswith p (a ++ b) = true.
Proof.
  revert a. induction p as [|c p IH]; intros a H; simpl; [reflexivity|].
  destruct a as [|d a]; simpl in *; [discriminate|].
  apply andb_true_iff in H as [H1 H2]. rewrite H1. simpl. now apply IH.
Qed.

Lemma contains_app_l (p a b : string) :
  contains p a = true -> contains p (a ++ b) = true.
Proof.
  induction a as [|c a IH]; simpl; intros H.
  - rewrite orb_false_r in H. destruct p; [|discriminate].
    destruct b; reflexivity.
  - apply orb_true_iff in H as [H|H].
    + change (String c (a ++ b)) with (String c a ++ b).
      rewrite (startswith_app_l _ _ _ H). reflexivity.
    + rewrite (IH H). apply orb_true_r.
Qed.

(** A text occurs in whatever is put around it. *)
Lemma contains_middle (p a b : string) : contains p (a ++ p ++ b) = true.
Proof.
  apply contains_app_r. destruct p as [|c p]; simpl.
  - destruct b; reflexivity.
  - rewrite Ascii.eqb_refl. simpl.
    now rewrite startswith_app.
Qed.

Lemma all_chars_app (P : ascii -> bool) (a b : string) :
  all_chars P (a ++ b) = all_chars P a && all_chars P b.
Proof.
  induction a as [|c a IH]; simpl; [reflexivity|].
  rewrite IH. now rewrite andb_assoc.
Qed.

Lemma all_chars_absent (P : ascii -> bool) (c : ascii) (s : string) :
  all_chars P s = true -> P c = false -> contains_char c s = false.
Proof.
  intros Hs Hc. induction s as [|d s IH]; simpl in *; [reflexivity|].
  apply andb_true_iff in Hs as [Hd Hs]. rewrite (IH Hs), orb_false_r.
  destruct (Ascii.eqb_spec c d) as [->|]; [congruence | reflexivity].
Qed.

Lemma contains_char_spaces (c : ascii) (n : nat) :
  c <> " "%char -> contains_char c (spaces n) = false.
Proof.
  intros Hc. induction n as [|n IH]; simpl; [reflexivity|].
  rewrite IH, orb_false_r. now apply Ascii.eqb_neq.
Qed.

(** ** Facts about [quote_plus] *)

Lemma flat_map_str_app (f : ascii -> string) (a b : string) :
  flat_map_str f (a ++ b) = flat_map_str f a ++ flat_map_str f b.
Proof.
  induction a as [|c a IH]; simpl; [reflexivity|].
  now rewrite IH, append_assoc_s.
Qed.

Ltac each_byte c := destruct c as [[] [] [] [] [] [] [] []].

Lemma replace_quoter_blank (c : ascii) :
  replace_char " " "+" (quoter " " c) = plus_byte c.
Proof. each_byte c; reflexivity. Qed.

Lemma quote_blank_safe (s : string) :
  replace_char " " "+" (quote_from_bytes " " s) = flat_map_str plus_byte s.
Proof.
  induction s as [|c s IH]; simpl; [reflexivity|].
  now rewrite replace_char_app, replace_quoter_blank, IH.
Qed.

Lemma quote_no_blank (s : string) :
  contains_char " " s = false ->
  quote_from_bytes EmptyString s = flat_map_str plus_byte s.
Proof.
  induction s as [|c s IH];
    cbn [contains_char quote_from_bytes flat_map_str]; intros H; [reflexivity|].
  apply orb_false_iff in H as [Hc Hs]. rewrite (IH Hs).
  unfold plus_byte. rewrite Ascii.eqb_sym in Hc. now rewrite Hc.
Qed.

(** [quote_plus] works byte by byte. *)
Lemma quote_plus_bytes (s : string) :
  quote_plus s = flat_map_str plus_byte s.
Proof.
  unfold quote_plus, quote.
  destruct (contains_char " " s) eqn:E; simpl.
  - apply quote_blank_safe.
  - now apply quote_no_blank.
Qed.

Lemma unquote_plus_byte (c : ascii) (x : string) :
  unquote (replace_char "+" " " (plus_byte c) ++ x) = String c (unquote x).
Proof. each_byte c; reflexivity. Qed.

(** Decoding undoes encoding. *)
Lemma unquote_plus_quote_plus (s : string) : unquote_plus (quote_plus s) = s.
Proof.
  rewrite quote_plus_bytes. unfold unquote_plus.
  induction s as [|c s IH]; simpl; [reflexivity|].
  now rewrite replace_char_app, unquote_plus_byte, IH.
Qed.

Lemma plus_byte_written (c : ascii) : all_chars written (plus_byte c) = true.
Proof. each_byte c; reflexivity. Qed.

Lemma quote_plus_written (s : string) : all_chars written (quote_plus s) = true.
Proof.
  rewrite quote_plus_bytes.
  induction s as [|c s IH]; simpl; [reflexivity|].
  now rewrite all_chars_app, plus_byte_written, IH.
Qed.

Lemma quote_plus_lacks (c : ascii) (s : string) :
  written c = false -> contains_char c (quote_plus s) = false.
Proof. intros H. exact (all_chars_absent _ _ _ (quote_plus_written s) H). Qed.

Lemma no_percent20_byte (c : ascii) (x : string) :
  contains "%20" (plus_byte c ++ x) = contains "%20" x.
Proof. each_byte c; reflexivity. Qed.

Lemma quote_plus_no_percent20 (s : string) :
  contains "%20" (quote_plus s) = false.
Proof.
  rewrite quote_plus_bytes.
  induction s as [|c s IH]; simpl; [reflexivity|].
  now rewrite no_percent20_byte.
Qed.

(** ** Facts about the query parser *)

Lemma split_first (sep : ascii) (a b : string) :
  contains_char sep a = false ->
  split sep (a ++ String sep b) = a :: split sep b.
Proof.
  induction a as [|c a IH]; cbn [contains_char split append]; intros H.
  - now rewrite Ascii.eqb_refl.
  - apply orb_false_iff in H as [Hc Ha].
    destruct (Ascii.eqb_spec c sep) as [->|_].
    + now rewrite Ascii.eqb_refl in Hc.
    + now rewrite (IH Ha).
Qed.

Lemma split_query (enc rest : string) :
  contains_char "&" enc = false ->
  split "&" ("q=" ++ enc ++ String "&" rest) = ("q=" ++ enc) :: split "&" rest.
Proof.
  intros H.
  change ("q=" ++ enc ++ String "&" rest) with (("q=" ++ enc) ++ String "&" rest).
  apply split_first. cbn [append contains_char]. rewrite H. reflexivity.
Qed.

Lemma partition_absent (sep : ascii) (a b : string) :
  contains_char sep a = false ->
  partition sep (a ++ String sep b) = Some (a, b).
Proof.
  induction a as [|c a IH]; cbn [contains_char partition append]; intros H.
  - now rewrite Ascii.eqb_refl.
  - apply orb_false_iff in H as [Hc Ha].
    destruct (Ascii.eqb_spec c sep) as [->|_].
    + now rewrite Ascii.eqb_refl in Hc.
    + now rewrite (IH Ha).
Qed.

(** With a key in [secrets.ini] the builder returns, and returns that URL. *)
Lemma build_weather_query_returns
  (secrets : config) (section : list (string * string)) (api_key : string)
  (city_input : list string) (imperial : bool) :
  assoc "openweather" secrets = Some section ->
  assoc "api_key" section = Some api_key ->
  build_weather_query secrets city_input imperial =
    ([ConfigRead "secrets.ini"],
     Returned (weather_url (join " " city_input) imperial api_key)).
Proof.
  intros Hs Hk. unfold build_weather_query, _get_api_key.
  rewrite Hs, Hk. reflexivity.
Qed.

Lemma query_value_q (city_name : string) (imperial : bool) (api_key : string) :
  query_value "q" (weather_url city_name imperial api_key) = Some city_name.
Proof.
  unfold query_value, weather_url.
  change (BASE_WEATHER_API_URL ++ "?q=" ++ quote_plus city_name ++
          "&units=" ++ (if imperial then "imperial" else "metric") ++
          "&appid=" ++ api_key)
    with (BASE_WEATHER_API_URL ++
          String "?" ("q=" ++ quote_plus city_name ++
          String "&" ("units=" ++ (if imperial then "imperial" else "metric") ++
          "&appid=" ++ api_key))).
  rewrite partition_absent by reflexivity.
  rewrite split_query by (apply quote_plus_lacks; reflexivity).
  cbn [first_value].
  change ("q=" ++ quote_plus city_name)
    with ("q" ++ String "=" (quote_plus city_name)).
  rewrite partition_absent by reflexivity.
  cbn. now rewrite unquote_plus_quote_plus.
Qed.

Lemma query_value_units (city_name : string) (imperial : bool) (api_key : string) :
  query_value "units" (weather_url city_name imperial api_key) =
    Some (if imperial then "imperial" else "metric").
Proof.
  unfold query_value, weather_url.
  set (token := if imperial then "imperial" else "metric").
  assert (Ht : contains_char "&" ("units=" ++ token) = false)
    by (destruct imperial; reflexivity).
  change (BASE_WEATHER_API_URL ++ "?q=" ++ quote_plus city_name ++
          "&units=" ++ token ++ "&appid=" ++ api_key)
    with (BASE_WEATHER_API_URL ++
          String "?" ("q=" ++ quote_plus city_name ++
          String "&" ("units=" ++ token ++ String "&" ("appid=" ++ api_key)))).
  rewrite partition_absent by reflexivity.
  rewrite split_query by (apply quote_plus_lacks; reflexivity).
  change ("units=" ++ token ++ String "&" ("appid=" ++ api_key))
    with (("units=" ++ token) ++ String "&" ("appid=" ++ api_key)).
  rewrite split_first by exact Ht.
  cbn [first_value].
  change ("q=" ++ quote_plus city_name)
    with ("q" ++ String "=" (quote_plus city_name)).
  rewrite partition_absent by reflexivity.
  subst token. destruct imperial; reflexivity.
Qed.

Lemma weather_url_has_units (city_name : string) (imperial : bool) (api_key : string) :
  contains ("units=" ++ (if imperial then "imperial" else "metric"))
           (weather_url city_name imperial api_key) = true.
Proof.
  set (token := if imperial then "imperial" else "metric").
  assert (E : weather_url city_name imperial api_key =
              (BASE_WEATHER_API_URL ++ "?q=" ++ quote_plus city_name ++ "&") ++
              ("units=" ++ token) ++ ("&appid=" ++ api_key)).
  { unfold weather_url. fold token. rewrite !append_assoc_s. reflexivity. }
  rewrite E. apply contains_middle.
Qed.

(** ** The query builder: claims C4, C6 and C10 *)


Example join_new_york : join " " ["New"; "York"] = "New York".
Proof. reflexivity. Qed.

Lemma contains_step (p s : string) (d : ascii) :
  startswith p (String d s) = false ->
  contains p (String d s) = contains p s.
Proof. intros H. cbn [contains]. now rewrite H. Qed.

(** A text that begins with [units=] cannot start inside a part that has no
    [=] and is followed by [&]. *)
Lemma startswith_units_false (p' enc rest : string) :
  enc <> EmptyString ->
  contains_char "=" enc = false ->
  startswith (String "u" (String "n" (String "i" (String "t" (String "s"
                (String "=" p'))))))
             (enc ++ String "&" rest) = false.
Proof.
  intros Hne Heq.
  destruct enc as [|c0 [|c1 [|c2 [|c3 [|c4 [|c5 e]]]]]]; [congruence|..];
    cbn [append startswith];
    repeat match goal with
           | |- context [Ascii.eqb ?a "&"] => change (Ascii.eqb a "&") with false
           end;
    cbn [andb]; rewrite ?andb_false_r; try reflexivity.
  cbn [contains_char] in Heq.
  repeat (apply orb_false_iff in Heq as [? Heq]).
  match goal with H : Ascii.eqb "=" c5 = false |- _ => rewrite H end.
  cbn [andb]. rewrite ?andb_false_r. reflexivity.
Qed.

Lemma contains_units_through (p' enc rest : string) :
  contains_char "=" enc = false ->
  contains (String "u" (String "n" (String "i" (String "t" (String "s"
              (String "=" p'))))))
           (enc ++ String "&" rest) =
  contains (String "u" (String "n" (String "i" (String "t" (String "s"
              (String "=" p'))))))
           (String "&" rest).
Proof.
  induction enc as [|c enc IH]; intros H; [reflexivity|].
  change (String c enc ++ String "&" rest)
    with (String c (enc ++ String "&" rest)).
  rewrite contains_step.
  - apply IH. cbn [contains_char] in H. now apply orb_false_iff in H.
  - change (String c (enc ++ String "&" rest))
      with (String c enc ++ String "&" rest).
    apply startswith_units_false; [discriminate | exact H].
Qed.

(** The URL holds the text [units=] with the other token only if the key
    does. *)
Lemma weather_url_lacks_other_units
  (city_name : string) (imperial : bool) (api_key : string) :
  contains ("units=" ++ (if imperial then "metric" else "imperial")) api_key = false ->
  contains ("units=" ++ (if imperial then "metric" else "imperial"))
           (weather_url city_name imperial api_key) = false.
Proof.
  intros Hkey. unfold weather_url, BASE_WEATHER_API_URL.
  destruct imperial; cbn [append] in *;
    repeat rewrite contains_step by reflexivity;
    (rewrite contains_units_through by (apply quote_plus_lacks; reflexivity));
    repeat rewrite contains_step by reflexivity;
    exact Hkey.
Qed.

(** C6, as the code has it.  Provided the API key, which is appended as it
    is, does not itself hold the text [units=imperial] or [units=metric],
    the built URL contains [units=imperial] exactly when the flag is set and
    [units=metric] exactly when it is not.  Whatever the key, the [units]
    field the builder writes has that value. *)
Theorem C6_units_follow_flag
  (secrets : config) (section : list (string * string)) (api_key : string)
  (city_input : list string) (imperial : bool) :
  assoc "openweather" secrets = Some section ->
  assoc "api_key" section = Some api_key ->
  exists url,
    snd (build_weather_query secrets city_input imperial) = Returned url /\
    (contains "units=imperial" api_key = false ->
     contains "units=metric" api_key = false ->
     (contains "units=imperial" url = true <-> imperial = true) /\
     (contains "units=metric" url = true <-> imperial = false)) /\
    (imperial = true -> contains "units=imperial" url = true) /\
    (imperial = false -> contains "units=metric" url = true) /\
    (query_value "units" url = Some "imperial" <-> imperial = true) /\
    (query_value "units" url = Some "metric" <-> imperial = false).
Proof.
  intros Hs Hk. exists (weather_url (join " " city_input) imperial api_key).
  rewrite (build_weather_query_returns _ _ _ _ _ Hs Hk).
  rewrite query_value_units.
  pose proof (weather_url_has_units (join " " city_input) imperial api_key) as Hc.
  pose proof (weather_url_lacks_other_units (join " " city_input) imperial api_key)
    as Hn.
  split; [reflexivity|]. split.
  - intros Ki Km.
    destruct imperial; cbn [append] in Hc, Hn.
    + specialize (Hn Km). split; split; intros; try reflexivity; try exact Hc;
        congruence.
    + specialize (Hn Ki). split; split; intros; try reflexivity; try exact Hc;
        congruence.
  - destruct imperial; repeat split; intros; try discriminate; try exact Hc.
Qed.

(** C10, as the code has it.  Every blank of the joined city name is written
    as [+]; the encoded name holds neither a blank nor [%20]; and the built
    URL holds no blank provided the API key, which is appended as it is,
    holds none. *)
Theorem C10_blank_becomes_plus
  (secrets : config) (section : list (string * string)) (api_key : string)
  (city_input : list string) (imperial : bool) :
  assoc "openweather" secrets = Some section ->
  assoc "api_key" section = Some api_key ->
  exists url,
    snd (build_weather_query secrets city_input imperial) = Returned url /\
    url = BASE_WEATHER_API_URL ++ "?q=" ++ quote_plus (join " " city_input) ++
          "&units=" ++ (if imperial then "imperial" else "metric") ++
          "&appid=" ++ api_key /\
    (forall a b, join " " city_input = a ++ " " ++ b ->
       quote_plus (join " " city_input) = quote_plus a ++ "+" ++ quote_plus b) /\
    contains_char " " (quote_plus (join " " city_input)) = false /\
    contains "%20" (quote_plus (join " " city_input)) = false /\
    (contains_char " " api_key = false -> contains_char " " url = false).
Proof.
  intros Hs Hk. exists (weather_url (join " " city_input) imperial api_key).
  rewrite (build_weather_query_returns _ _ _ _ _ Hs Hk).
  repeat split.
  - intros a b E. rewrite E, !quote_plus_bytes, !flat_map_str_app. reflexivity.
  - apply quote_plus_lacks. reflexivity.
  - apply quote_plus_no_percent20.
  - intros Hkey. unfold weather_url.
    rewrite !contains_char_app, Hkey.
    rewrite (quote_plus_lacks " " _ eq_refl).
    destruct imperial; reflexivity.
Qed.

(** *** Concrete runs of the builder *)


Lemma C6_units_follow_flag_witness :
  assoc "openweather" demo_secrets = Some demo_section /\
  assoc "api_key" demo_section = Some demo_key /\
  contains "units=imperial" demo_key = false /\
  contains "units=metric" demo_key = false /\
  exists url,
    snd (build_weather_query demo_secrets ["Oslo"] true) = Returned url /\
    (contains "units=imperial" url = true <-> true = true) /\
    (contains "units=metric" url = true <-> true = false).
Proof.
  split; [reflexivity|]. split; [reflexivity|].
  split; [reflexivity|]. split; [reflexivity|].
  destruct (C6_units_follow_flag demo_secrets demo_section demo_key ["Oslo"] true
              eq_refl eq_refl) as (url & Hu & Hiff & _).
  exists url. split; [exact Hu|]. apply Hiff; reflexivity.
Defined.

(** With the key [k&units=imperial] a metric URL contains [units=imperial]. *)
Lemma C6_counterexample :
  ~ (forall (secrets : config) (city_input : list string) (imperial : bool)
            (t : list event) (url : string),
        build_weather_query secrets city_input imperial = (t, Returned url) ->
        (contains "units=imperial" url = true <-> imperial = true)).
Proof.
  intros H.
  specialize (H field_secrets ["Oslo"] false
                [ConfigRead "secrets.ini"]
                "http://api.openweathermap.org/data/2.5/weather?q=Oslo&units=metric&appid=k&units=imperial"
                eq_refl).
  destruct H as [H _]. discriminate (H eq_refl).
Qed.

Lemma C10_blank_becomes_plus_witness :
  assoc "openweather" demo_secrets = Some demo_section /\
  assoc "api_key" demo_section = Some demo_key /\
  exists url,
    snd (build_weather_query demo_secrets ["New"; "York"] false) = Returned url /\
    url = BASE_WEATHER_API_URL ++ "?q=" ++ quote_plus (join " " ["New"; "York"]) ++
          "&units=" ++ "metric" ++ "&appid=" ++ demo_key /\
    (forall a b, join " " ["New"; "York"] = a ++ " " ++ b ->
       quote_plus (join " " ["New"; "York"]) = quote_plus a ++ "+" ++ quote_plus b) /\
    contains_char " " (quote_plus (join " " ["New"; "York"])) = false /\
    contains "%20" (quote_plus (join " " ["New"; "York"])) = false /\
    (contains_char " " demo_key = false -> contains_char " " url = false).
Proof.
  split; [reflexivity|]. split; [reflexivity|].
  apply (C10_blank_becomes_plus demo_secrets demo_section demo_key ["New"; "York"] false);
    reflexivity.
Defined.

Lemma C10_counterexample :
  ~ (forall (secrets : config) (city_input : list string) (imperial : bool)
            (t : list event) (url : string),
        contains_char " " (join " " city_input) = true ->
        build_weather_query secrets city_input imperial = (t, Returned url) ->
        contains_char " " url = false).
Proof.
  intros H.
  specialize (H blank_secrets ["New"; "York"] false
                [ConfigRead "secrets.ini"]
                "http://api.openweathermap.org/data/2.5/weather?q=New+York&units=metric&appid=my key"
                eq_refl eq_refl).
  discriminate H.
Qed.

(** ** The fetcher and the presenter: claims C1, C2, C5 and C7 *)

Ltac settle_comparisons :=
  repeat match goal with
         | |- context [(?a <=? ?b)%Z] =>
             first [ rewrite (proj2 (Z.leb_le a b)) by lia
                   | rewrite (proj2 (Z.leb_gt a b)) by lia ]
         | |- context [(?a <? ?b)%Z] =>
             first [ rewrite (proj2 (Z.ltb_lt a b)) by lia
                   | rewrite (proj2 (Z.ltb_ge a b)) by lia ]
         end.

Section Facts.

Variable pyfloat : Type.
Variable float_str : pyfloat -> string.
Variable float_int : pyfloat -> option Z.
Variable container_str : json pyfloat -> string.
Variable unicode_capitalize : string -> string.
Variable PADDING : nat.
Variable secrets : config.
Variable urlopen : string -> string + exn.
Variable json_loads : string -> json pyfloat + exn.


(** The colour chosen for an integer code, as a table. *)
Lemma select_colour_int (code : Z) :
  select_colour float_int (JInt code) =
    if ((200 <=? code) && (code <? 300))%Z then RED
    else if ((300 <=? code) && (code <? 400))%Z then CYAN
    else if ((500 <=? code) && (code <? 600))%Z then BLUE
    else if ((600 <=? code) && (code <? 700))%Z then WHITE
    else if ((700 <=? code) && (code <? 800))%Z then BLUE
    else if ((800 <=? code) && (code <? 801))%Z then YELLOW
    else if ((801 <=? code) && (code <? 900))%Z then WHITE
    else RESET.
Proof. reflexivity. Qed.

(** C1.  For every integer code the colour is the one of the table: red on
    [200,300), cyan on [300,400), blue on [500,600), white on [600,700), blue
    on [700,800), yellow on [800,801), white on [801,900), and the reset
    style on every other integer: below 200, in the gap 400..499, from 900
    on. *)
Theorem C1_colour_table (code : Z) :
  ((200 <= code < 300)%Z -> select_colour float_int (JInt code) = RED) /\
  ((300 <= code < 400)%Z -> select_colour float_int (JInt code) = CYAN) /\
  ((500 <= code < 600)%Z -> select_colour float_int (JInt code) = BLUE) /\
  ((600 <= code < 700)%Z -> select_colour float_int (JInt code) = WHITE) /\
  ((700 <= code < 800)%Z -> select_colour float_int (JInt code) = BLUE) /\
  ((800 <= code < 801)%Z -> select_colour float_int (JInt code) = YELLOW) /\
  ((801 <= code < 900)%Z -> select_colour float_int (JInt code) = WHITE) /\
  ((code < 200 \/ 400 <= code < 500 \/ 900 <= code)%Z ->
     select_colour float_int (JInt code) = RESET).
Proof.
  rewrite select_colour_int.
  repeat split; intros H;
    try (destruct H as [H | [H | H]]); settle_comparisons; reflexivity.
Qed.


(** C7, as the code has it.  When [urlopen] answers with a body, the body is
    read and given to [json.loads].  If that raises [JSONDecodeError] the
    process ends with the message about the unreadable response; if it
    raises anything else the exception is not caught and there is no
    message; if it returns a value, that value is returned unchanged. *)
Theorem C7_body_decoding (query_url data : string) :
  urlopen query_url = inl data ->
  (json_loads data = inr JSONDecodeError ->
     get_weather_data urlopen json_loads query_url =
       ([Urlopen query_url; ResponseRead; JsonLoads data],
        Exited "Couldn't read the server response.")) /\
  (forall e, json_loads data = inr e -> e <> JSONDecodeError ->
     get_weather_data urlopen json_loads query_url =
       ([Urlopen query_url; ResponseRead; JsonLoads data], Raised e)) /\
  (forall v, json_loads data = inl v ->
     get_weather_data urlopen json_loads query_url =
       ([Urlopen query_url; ResponseRead; JsonLoads data], Returned v)).
Proof.
  intros H. unfold get_weather_data. rewrite H.
  split; [intros E | split; [intros e E N | intros v E]]; rewrite E;
    try reflexivity.
  destruct e; try reflexivity. now destruct N.
Qed.


End Facts.

(** ** The presenter: claims C3, C8 and C9 *)

Lemma assoc_set_same {V : Type} (k : string) (v : V) (d : list (string * V)) :
  assoc k (assoc_set k v d) = Some v.
Proof.
  induction d as [|[k' v'] d IH]; cbn [assoc assoc_set].
  - now rewrite String.eqb_refl.
  - destruct (String.eqb_spec k' k) as [->|N]; cbn [assoc].
    + now rewrite String.eqb_refl.
    + apply String.eqb_neq in N. now rewrite N.
Qed.

Lemma assoc_set_other {V : Type} (k k' : string) (v : V) (d : list (string * V)) :
  k <> k' -> assoc k (assoc_set k' v d) = assoc k d.
Proof.
  intros N. induction d as [|[k0 v0] d IH]; cbn [assoc assoc_set].
  - apply not_eq_sym, String.eqb_neq in N. now rewrite N.
  - destruct (String.eqb_spec k0 k') as [->|N0]; cbn [assoc].
    + apply not_eq_sym, String.eqb_neq in N. now rewrite N.
    + now rewrite IH.
Qed.

Section Presenter.

Variable pyfloat : Type.
Variable float_str : pyfloat -> string.
Variable float_int : pyfloat -> option Z.
Variable container_str : json pyfloat -> string.
Variable unicode_capitalize : string -> string.
Variable PADDING : nat.


Lemma getitem_not_exited (v : json pyfloat) (k msg : string) :
  getitem v k <> Exited msg.
Proof.
  destruct v; cbn; try discriminate.
  destruct (assoc k fields); discriminate.
Qed.

Lemma getitem0_not_exited (v : json pyfloat) (msg : string) :
  getitem0 v <> Exited msg.
Proof.
  destruct v; cbn; try discriminate.
  - destruct s; discriminate.
  - destruct items; discriminate.
Qed.

(** [display_weather_info] reads first and prints after: a failed read ends
    it before anything is written. *)
Lemma display_phases (weather_data : json pyfloat) (imperial : bool) :
  display_weather_info float_str float_int container_str unicode_capitalize PADDING
      weather_data imperial =
    match read_fields weather_data with
    | Returned r => print_fields float_str float_int container_str unicode_capitalize
        PADDING r imperial
    | Raised e => ([], Raised e)
    | Exited msg => ([], Exited msg)
    end.
Proof.
  unfold display_weather_info, read_fields, print_fields.
  destruct (getitem weather_data "name") as [city| |];
    cbn [bind lift obind]; try reflexivity.
  destruct (getitem weather_data "weather") as [w| |];
    cbn [bind lift obind]; try reflexivity.
  destruct (getitem0 w) as [w0| |]; cbn [bind lift obind]; try reflexivity.
  destruct (getitem w0 "id") as [wid| |]; cbn [bind lift obind]; try reflexivity.
  destruct (getitem w0 "description") as [desc| |];
    cbn [bind lift obind]; try reflexivity.
  destruct (getitem weather_data "main") as [m| |];
    cbn [bind lift obind]; try reflexivity.
  destruct (getitem m "temp") as [temp| |]; cbn [bind lift obind]; try reflexivity.
  destruct (getitem weather_data "sys") as [s| |];
    cbn [bind lift obind]; try reflexivity.
  destruct (getitem s "country") as [country| |];
    cbn [bind lift obind]; try reflexivity.
  cbn [f_city f_weather_id f_weather_description f_temperature].
  destruct (format_center float_str PADDING city); try reflexivity.
  destruct (capitalize_method unicode_capitalize desc); reflexivity.
Qed.

Lemma read_fields_not_exited (weather_data : json pyfloat) (msg : string) :
  read_fields weather_data <> Exited msg.
Proof.
  unfold read_fields. intros F.
  destruct (getitem weather_data "name") eqn:E1; cbn [obind] in F;
    [ | discriminate | now apply getitem_not_exited in E1 ].
  destruct (getitem weather_data "weather") as [w| |] eqn:E2; cbn [obind] in F;
    [ | discriminate | now apply getitem_not_exited in E2 ].
  destruct (getitem0 w) as [w0| |] eqn:E3; cbn [obind] in F;
    [ | discriminate | now apply getitem0_not_exited in E3 ].
  destruct (getitem w0 "id") eqn:E4; cbn [obind] in F;
    [ | discriminate | now apply getitem_not_exited in E4 ].
  destruct (getitem w0 "description") eqn:E5; cbn [obind] in F;
    [ | discriminate | now apply getitem_not_exited in E5 ].
  destruct (getitem weather_data "main") as [m| |] eqn:E6; cbn [obind] in F;
    [ | discriminate | now apply getitem_not_exited in E6 ].
  destruct (getitem m "temp") eqn:E7; cbn [obind] in F;
    [ | discriminate | now apply getitem_not_exited in E7 ].
  destruct (getitem weather_data "sys") as [s| |] eqn:E8; cbn [obind] in F;
    [ | discriminate | now apply getitem_not_exited in E8 ].
  destruct (getitem s "country") eqn:E9; cbn [obind] in F;
    [ discriminate | discriminate | now apply getitem_not_exited in E9 ].
Qed.

(** What a run that prints everything writes. *)
Lemma print_fields_full (r : fields_read pyfloat) (imperial : bool)
  (text capitalized : string) :
  format_center float_str PADDING (f_city r) = Returned text ->
  capitalize_method unicode_capitalize (f_weather_description r) = Returned capitalized ->
  print_fields float_str float_int container_str unicode_capitalize PADDING r imperial =
    ([ChangeColour REVERSE; Print (text ++ EmptyString); ChangeColour RESET;
      ChangeColour (select_colour float_int (f_weather_id r));
      Print ((TAB ++ center PADDING capitalized) ++ " ");
      ChangeColour RESET;
      Print (("(" ++ py_str float_str container_str (f_temperature r) ++
              DEGREE_LITERAL ++ (if imperial then "F" else "C") ++ ")") ++ NEWLINE)],
     Returned tt).
Proof.
  intros Hc Hd. unfold print_fields. rewrite Hc, Hd. reflexivity.
Qed.

Lemma contains_skip_spaces (c : ascii) (p s : string) (n : nat) :
  c <> " "%char ->
  contains (String c p) (spaces n ++ s) = contains (String c p) s.
Proof.
  intros N. induction n as [|n IH]; [reflexivity|].
  cbn [spaces append contains startswith].
  apply Ascii.eqb_neq in N. rewrite N. exact IH.
Qed.

Lemma contains_skip_char (c d : ascii) (p s : string) :
  c <> d -> contains (String c p) (String d s) = contains (String c p) s.
Proof.
  intros N. cbn [contains startswith].
  apply Ascii.eqb_neq in N. now rewrite N.
Qed.

Ltac differ := let F := fresh in intro F; vm_compute in F; discriminate F.

Ltac skip_to_tail :=
  repeat first [ rewrite contains_skip_spaces by differ
               | rewrite contains_skip_char by differ
               | progress cbn [append] ].

(** C3, on the code.  For the Paris response with [imperial] off the line
    written holds [Paris] and [Clear sky]; the temperature is followed by the
    two characters of [DEGREE_LITERAL] and the unit letter, so the line holds
    [21.5] followed by U+00C2, the degree sign and [C], and does not hold
    [21.5] followed directly by the degree sign. *)
Theorem C3_paris_line (t : pyfloat) :
  float_str t = "21.5" ->
  display_weather_info float_str float_int container_str unicode_capitalize PADDING
      (paris t) false =
    ([ChangeColour REVERSE; Print (center PADDING "Paris"); ChangeColour RESET;
      ChangeColour YELLOW;
      Print (TAB ++ center PADDING "Clear sky" ++ " ");
      ChangeColour RESET;
      Print ("(21.5Â°C)" ++ NEWLINE)],
     Returned tt) /\
  contains "Paris" (printed (fst (display_weather_info float_str float_int container_str
      unicode_capitalize PADDING (paris t) false))) = true /\
  contains "Clear sky" (printed (fst (display_weather_info float_str float_int
      container_str unicode_capitalize PADDING (paris t) false))) = true /\
  contains "21.5Â°C" (printed (fst (display_weather_info float_str float_int
      container_str unicode_capitalize PADDING (paris t) false))) = true /\
  contains "21.5°C" (printed (fst (display_weather_info float_str float_int
      container_str unicode_capitalize PADDING (paris t) false))) = false.
Proof.
  intros Ht.
  assert (E : display_weather_info float_str float_int container_str unicode_capitalize
      PADDING (paris t) false =
    ([ChangeColour REVERSE; Print (center PADDING "Paris"); ChangeColour RESET;
      ChangeColour YELLOW;
      Print (TAB ++ center PADDING "Clear sky" ++ " ");
      ChangeColour RESET;
      Print ("(21.5Â°C)" ++ NEWLINE)],
     Returned tt)).
  { rewrite display_phases. cbn [paris read_fields getitem getitem0 assoc obind
      String.eqb Ascii.eqb Bool.eqb].
    rewrite (print_fields_full _ _ (center PADDING "Paris") "Clear sky") by reflexivity.
    cbn [f_city f_weather_id f_temperature f_weather_description py_str].
    rewrite Ht, append_empty_r, append_assoc_s. reflexivity. }
  split; [exact E|]. rewrite E. cbn [fst printed].
  unfold center. rewrite !append_assoc_s.
  repeat split.
  - apply contains_middle.
  - do 4 apply contains_app_r. apply contains_middle.
  - do 7 apply contains_app_r. reflexivity.
  - unfold TAB. skip_to_tail. reflexivity.
Qed.

(** C8.  Let [entry] be the first entry of the weather list.  If its id is
    201, the only colour a run selects besides reverse and reset is red, and
    a run that prints the line selects it, as its fourth event, whatever the
    other fields are.  Whatever the first entry holds, the entries after it
    never matter: two responses that differ only there are presented alike,
    event by event. *)
Theorem C8_first_entry_decides
  (weather_data entry : json pyfloat) (others : list (json pyfloat))
  (imperial : bool) :
  getitem weather_data "weather" = Returned (JArr (entry :: others)) ->
  (getitem entry "id" = Returned (JInt 201) ->
     (forall c,
        In (ChangeColour c)
           (fst (display_weather_info float_str float_int container_str
                   unicode_capitalize PADDING weather_data imperial)) ->
        c = REVERSE \/ c = RESET \/ c = RED) /\
     (snd (display_weather_info float_str float_int container_str
             unicode_capitalize PADDING weather_data imperial) = Returned tt ->
      nth_error (fst (display_weather_info float_str float_int container_str
                        unicode_capitalize PADDING weather_data imperial)) 3 =
        Some (ChangeColour RED))) /\
  (forall fields others',
     weather_data = JObj fields ->
     display_weather_info float_str float_int container_str unicode_capitalize
       PADDING (JObj (assoc_set "weather" (JArr (entry :: others')) fields))
       imperial =
     display_weather_info float_str float_int container_str unicode_capitalize
       PADDING weather_data imperial).
Proof.
  intros Hw. split.
  - intros Hid.
    rewrite display_phases. unfold read_fields.
    rewrite Hw. cbn [obind getitem0]. rewrite Hid.
    destruct (getitem weather_data "name") as [city| |]; cbn [obind];
      try (split; [intros c [] | discriminate]).
    destruct (getitem entry "description") as [desc| |]; cbn [obind];
      try (split; [intros c [] | discriminate]).
    destruct (getitem weather_data "main") as [m| |]; cbn [obind];
      try (split; [intros c [] | discriminate]).
    destruct (getitem m "temp") as [temp| |]; cbn [obind];
      try (split; [intros c [] | discriminate]).
    destruct (getitem weather_data "sys") as [s| |]; cbn [obind];
      try (split; [intros c [] | discriminate]).
    destruct (getitem s "country") as [country| |]; cbn [obind];
      try (split; [intros c [] | discriminate]).
    unfold print_fields.
    cbn [f_city f_weather_id f_weather_description f_temperature].
    destruct (format_center float_str PADDING city) as [text| |];
      destruct (capitalize_method unicode_capitalize desc) as [cap| |];
      (split;
       [ intros c Hin; cbn in Hin;
         repeat (destruct Hin as [Hin|Hin];
                 [ try discriminate Hin; injection Hin as <-; auto |]);
         destruct Hin
       | cbn; intros F; first [ reflexivity | discriminate F ] ]).
  - intros fields others' ->. unfold display_weather_info.
    cbn [getitem] in *.
    rewrite assoc_set_same.
    rewrite !assoc_set_other by discriminate.
    destruct (assoc "weather" fields) as [w|]; [|discriminate].
    injection Hw as ->. reflexivity.
Qed.

(** C9.  [display_weather_info] reads [sys.country]: when the [sys] object
    has no [country], the run ends with an exception before anything is
    written.  What the field holds is never used: two responses that differ
    only in the country are presented alike. *)
Theorem C9_country_read_not_shown
  (fields sys_fields : list (string * json pyfloat)) (imperial : bool) :
  assoc "sys" fields = Some (JObj sys_fields) ->
  (assoc "country" sys_fields = None ->
     exists e, display_weather_info float_str float_int container_str unicode_capitalize
         PADDING (JObj fields) imperial = ([], Raised e)) /\
  (forall c1 c2,
     display_weather_info float_str float_int container_str unicode_capitalize PADDING
         (JObj (assoc_set "sys" (JObj (assoc_set "country" c1 sys_fields)) fields))
             imperial =
     display_weather_info float_str float_int container_str unicode_capitalize PADDING
         (JObj (assoc_set "sys" (JObj (assoc_set "country" c2 sys_fields)) fields))
             imperial).
Proof.
  intros Hsys. split.
  - intros Hnone. rewrite display_phases.
    destruct (read_fields (JObj fields)) as [r|e|msg] eqn:E.
    + exfalso. unfold read_fields in E. cbn [getitem] in E.
      rewrite Hsys in E.
      destruct (assoc "name" fields); cbn [obind] in E; [|discriminate].
      destruct (assoc "weather" fields) as [w|]; cbn [obind] in E; [|discriminate].
      destruct (getitem0 w) as [w0| |]; cbn [obind] in E; try discriminate.
      destruct (getitem w0 "id"); cbn [obind] in E; try discriminate.
      destruct (getitem w0 "description"); cbn [obind] in E; try discriminate.
      destruct (assoc "main" fields) as [m|]; cbn [obind] in E; [|discriminate].
      destruct (getitem m "temp"); cbn [obind] in E; try discriminate.
      cbn [getitem] in E. rewrite Hnone in E. discriminate.
    + exists e. reflexivity.
    + exfalso. exact (read_fields_not_exited _ _ E).
  - intros c1 c2. unfold display_weather_info. cbn [getitem].
    rewrite !assoc_set_same.
    rewrite !assoc_set_other by discriminate.
    destruct (assoc "name" fields); [|reflexivity].
    destruct (assoc "weather" fields) as [w|]; [|reflexivity].
    cbn [lift bind].
    destruct (getitem0 w) as [w0| |]; try reflexivity.
    destruct (getitem w0 "id"); try reflexivity.
    destruct (getitem w0 "description"); try reflexivity.
    destruct (assoc "main" fields) as [m|]; [|reflexivity].
    destruct (getitem m "temp"); try reflexivity.
    cbn [getitem]. rewrite !assoc_set_same. reflexivity.
Qed.

End Presenter.

(** ** Concrete runs *)

Lemma C1_colour_table_witness :
  (800 <= 800 < 801)%Z /\ select_colour demo_float_int (JInt 800) = YELLOW /\
  (400 <= 450 < 500)%Z /\ select_colour demo_float_int (JInt 450) = RESET.
Proof.
  split; [lia|]. split.
  - destruct (C1_colour_table demo_float demo_float_int 800)
      as (_ & _ & _ & _ & _ & H & _).
    apply H. lia.
  - split; [lia|].
    destruct (C1_colour_table demo_float demo_float_int 450)
      as (_ & _ & _ & _ & _ & _ & _ & H).
    apply H. lia.
Defined.


Lemma C7_body_decoding_witness :
  answers_html "http://example.org" = inl html_page /\
  strict_loads html_page = inr JSONDecodeError /\
  get_weather_data answers_html strict_loads "http://example.org" =
    ([Urlopen "http://example.org"; ResponseRead; JsonLoads html_page],
     Exited "Couldn't read the server response.").
Proof.
  split; [reflexivity|]. split; [reflexivity|].
  destruct (C7_body_decoding demo_float answers_html strict_loads
              "http://example.org" html_page eq_refl) as (H & _).
  apply H. reflexivity.
Defined.

(** A body that is no JSON and yet gives no message: the bytes FF 61 62 63
    make [json.loads] raise [UnicodeDecodeError], which leaves
    [get_weather_data] uncaught. *)
Lemma C7_counterexample :
  ~ (forall (urlopen : string -> string + exn)
            (json_loads : string -> json demo_float + exn)
            (query_url data : string),
        urlopen query_url = inl data ->
        (forall v, json_loads data <> inl v) ->
        snd (get_weather_data urlopen json_loads query_url) =
          Exited "Couldn't read the server response.").
Proof.
  intros H.
  specialize (H answers_bad_bytes undecodable "http://example.org" bad_utf8_body
                eq_refl).
  assert (N : forall v, undecodable bad_utf8_body <> inl v)
    by (intros v F; discriminate F).
  specialize (H N). discriminate H.
Qed.



Lemma C3_paris_line_witness :
  demo_float_str "21.5" = "21.5" /\
  contains "21.5Â°C" (printed (fst (demo_present (paris ("21.5" : demo_float)) false)))
      = true /\
  contains "21.5°C" (printed (fst (demo_present (paris ("21.5" : demo_float)) false))) = false.
Proof.
  split; [reflexivity|].
  destruct (C3_paris_line demo_float demo_float_str demo_float_int
              demo_container_str demo_capitalize demo_padding "21.5" eq_refl)
    as (_ & _ & _ & H1 & H2).
  split; [exact H1 | exact H2].
Defined.

Lemma C8_first_entry_decides_witness :
  getitem (JObj storm_fields) "weather" =
    Returned (JArr [storm_entry; JObj [("id", JInt 500); ("description", JStr "light rain")]]) /\
  getitem storm_entry "id" = Returned (JInt 201) /\
  snd (demo_present (JObj storm_fields) false) = Returned tt /\
  nth_error (fst (demo_present (JObj storm_fields) false)) 3 = Some (ChangeColour RED) /\
  demo_present (JObj (assoc_set "weather" (JArr [storm_entry]) storm_fields)) false =
    demo_present (JObj storm_fields) false.
Proof.
  split; [reflexivity|]. split; [reflexivity|]. split; [reflexivity|].
  destruct (C8_first_entry_decides demo_float demo_float_str demo_float_int
              demo_container_str demo_capitalize demo_padding
              (JObj storm_fields) storm_entry
              [JObj [("id", JInt 500); ("description", JStr "light rain")]]
              false eq_refl) as (H201 & Hrest).
  split.
  - destruct (H201 eq_refl) as (_ & H). apply H. reflexivity.
  - apply (Hrest storm_fields []). reflexivity.
Defined.

Lemma C9_country_read_not_shown_witness :
  assoc "sys" stateless_fields = Some (JObj [("sunrise", JInt 1700000000)]) /\
  assoc "country" [("sunrise", @JInt demo_float 1700000000)] = None /\
  exists e, demo_present (JObj stateless_fields) true = ([], Raised e).
Proof.
  split; [reflexivity|]. split; [reflexivity|].
  apply (C9_country_read_not_shown demo_float demo_float_str demo_float_int
           demo_container_str demo_capitalize demo_padding
           stateless_fields [("sunrise", JInt 1700000000)] true);
    reflexivity.
Defined.

(** * Further properties of the code *)

(** ** [build_weather_query] *)

Lemma all_chars_weaken (P Q : ascii -> bool) (s : string) :
  (forall c, P c = true -> Q c = true) ->
  all_chars P s = true -> all_chars Q s = true.
Proof.
  intros HPQ. induction s as [|c s IH]; cbn [all_chars]; [reflexivity|].
  intros H. apply andb_true_iff in H as [Hc Hs].
  now rewrite (HPQ c Hc), (IH Hs).
Qed.

Lemma written_is_ascii (c : ascii) : written c = true -> is_ascii c = true.
Proof. each_byte c; intros H; solve [reflexivity | discriminate H]. Qed.

Lemma all_chars_is_ascii (s : string) : all_chars is_ascii s = all_ascii s.
Proof. induction s as [|c s IH]; cbn; [reflexivity | now rewrite IH]. Qed.

(** X1.  Whatever the city words hold, the name reaches the URL in the
    letters, digits and marks [_ . - ~ + %] only: it is pure ASCII and holds
    none of the characters that structure a URL, so a city name cannot add
    or end a query field. *)
Theorem city_name_cannot_inject
  (secrets : config) (section : list (string * string)) (api_key : string)
  (city_input : list string) (imperial : bool) :
  assoc "openweather" secrets = Some section ->
  assoc "api_key" section = Some api_key ->
  exists encoded,
    snd (build_weather_query secrets city_input imperial) =
      Returned (BASE_WEATHER_API_URL ++ "?q=" ++ encoded ++
                "&units=" ++ (if imperial then "imperial" else "metric") ++
                "&appid=" ++ api_key) /\
    all_chars written encoded = true /\
    all_ascii encoded = true /\
    contains_char "&" encoded = false /\
    contains_char "=" encoded = false /\
    contains_char "?" encoded = false /\
    contains_char "#" encoded = false /\
    contains_char "/" encoded = false /\
    contains_char " " encoded = false.
Proof.
  intros Hs Hk. exists (quote_plus (join " " city_input)).
  rewrite (build_weather_query_returns _ _ _ _ _ Hs Hk).
  split; [reflexivity|]. split; [apply quote_plus_written|].
  split.
  - rewrite <- all_chars_is_ascii.
    exact (all_chars_weaken _ _ _ written_is_ascii (quote_plus_written _)).
  - repeat split; apply quote_plus_lacks; reflexivity.
Qed.

Lemma city_name_cannot_inject_witness :
  assoc "openweather" demo_secrets = Some demo_section /\
  assoc "api_key" demo_section = Some demo_key /\
  exists encoded,
    snd (build_weather_query demo_secrets ["x&units=imperial#"] false) =
      Returned (BASE_WEATHER_API_URL ++ "?q=" ++ encoded ++
                "&units=" ++ "metric" ++ "&appid=" ++ demo_key) /\
    all_chars written encoded = true /\
    all_ascii encoded = true /\
    contains_char "&" encoded = false /\
    contains_char "=" encoded = false /\
    contains_char "?" encoded = false /\
    contains_char "#" encoded = false /\
    contains_char "/" encoded = false /\
    contains_char " " encoded = false.
Proof.
  split; [reflexivity|]. split; [reflexivity|].
  apply (city_name_cannot_inject demo_secrets demo_section demo_key
           ["x&units=imperial#"] false); reflexivity.
Defined.

Lemma join_merge (a b : string) (rest : list string) :
  join " " (a :: b :: rest) = join " " ((a ++ " " ++ b) :: rest).
Proof.
  destruct rest as [|c rest]; cbn [join]; [reflexivity|].
  now rewrite !append_assoc_s.
Qed.

(** X2.  Only the joined name counts: two words and the one word made of
    them with a blank in between give the same run of the builder, so
    [New York] typed as two arguments or as one quoted argument asks for the
    same URL. *)
Theorem word_boundaries_are_lost
  (secrets : config) (a b : string) (rest : list string) (imperial : bool) :
  build_weather_query secrets (a :: b :: rest) imperial =
  build_weather_query secrets ((a ++ " " ++ b) :: rest) imperial.
Proof.
  unfold build_weather_query. now rewrite join_merge.
Qed.

(** X3.  Different city names never share a URL: when the builder returns
    the same URL for two inputs under the same configuration and flag, the
    joined names are equal. *)
Theorem distinct_names_distinct_urls
  (secrets : config) (city1 city2 : list string) (imperial : bool) (url : string) :
  snd (build_weather_query secrets city1 imperial) = Returned url ->
  snd (build_weather_query secrets city2 imperial) = Returned url ->
  join " " city1 = join " " city2.
Proof.
  destruct (assoc "openweather" secrets) as [section|] eqn:Hs.
  - destruct (assoc "api_key" section) as [api_key|] eqn:Hk.
    + rewrite !(build_weather_query_returns _ _ _ _ _ Hs Hk). cbn [snd].
      intros H1 H2. injection H1 as H1. injection H2 as H2.
      pose proof (query_value_q (join " " city1) imperial api_key) as Q1.
      pose proof (query_value_q (join " " city2) imperial api_key) as Q2.
      rewrite H1 in Q1. rewrite H2 in Q2. congruence.
    + unfold build_weather_query, _get_api_key. rewrite Hs, Hk. discriminate.
  - unfold build_weather_query, _get_api_key. rewrite Hs. discriminate.
Qed.

Lemma distinct_names_distinct_urls_witness :
  snd (build_weather_query demo_secrets ["New"; "York"] false) =
    Returned (weather_url "New York" false demo_key) /\
  snd (build_weather_query demo_secrets ["New York"] false) =
    Returned (weather_url "New York" false demo_key) /\
  join " " ["New"; "York"] = join " " ["New York"].
Proof.
  split; [reflexivity|]. split; [reflexivity|].
  apply (distinct_names_distinct_urls demo_secrets ["New"; "York"] ["New York"]
           false (weather_url "New York" false demo_key)); reflexivity.
Defined.

Lemma quoter_safe (safe : string) (c : ascii) :
  always_safe c = true -> quoter safe c = String c EmptyString.
Proof. intros H. unfold quoter. now rewrite H. Qed.

Lemma always_safe_not_blank (c : ascii) :
  always_safe c = true -> Ascii.eqb c " " = false.
Proof. each_byte c; intros H; solve [reflexivity | discriminate H]. Qed.

Lemma plus_byte_safe (c : ascii) :
  always_safe c = true -> plus_byte c = String c EmptyString.
Proof.
  intros H. unfold plus_byte.
  now rewrite (always_safe_not_blank c H), (quoter_safe _ c H).
Qed.

(** X16.  A name made of letters, digits and the marks [_ . - ~] is put in
    the URL as it is. *)
Theorem plain_names_are_kept
  (secrets : config) (section : list (string * string)) (api_key : string)
  (city_input : list string) (imperial : bool) :
  assoc "openweather" secrets = Some section ->
  assoc "api_key" section = Some api_key ->
  all_chars always_safe (join " " city_input) = true ->
  snd (build_weather_query secrets city_input imperial) =
    Returned (BASE_WEATHER_API_URL ++ "?q=" ++ join " " city_input ++
              "&units=" ++ (if imperial then "imperial" else "metric") ++
              "&appid=" ++ api_key).
Proof.
  intros Hs Hk Hsafe.
  rewrite (build_weather_query_returns _ _ _ _ _ Hs Hk). cbn [snd].
  unfold weather_url.
  assert (E : forall s, all_chars always_safe s = true -> quote_plus s = s).
  { intros s. rewrite quote_plus_bytes.
    induction s as [|c s IH]; cbn [all_chars flat_map_str]; [reflexivity|].
    intros H. apply andb_true_iff in H as [Hc Hr].
    rewrite (plus_byte_safe c Hc). cbn [append]. now rewrite (IH Hr). }
  now rewrite (E _ Hsafe).
Qed.

Lemma plain_names_are_kept_witness :
  assoc "openweather" demo_secrets = Some demo_section /\
  assoc "api_key" demo_section = Some demo_key /\
  all_chars always_safe (join " " ["Oslo"]) = true /\
  snd (build_weather_query demo_secrets ["Oslo"] true) =
    Returned (BASE_WEATHER_API_URL ++ "?q=" ++ join " " ["Oslo"] ++
              "&units=" ++ "imperial" ++ "&appid=" ++ demo_key).
Proof.
  repeat (split; [reflexivity|]).
  apply (plain_names_are_kept demo_secrets demo_section demo_key ["Oslo"] true);
    reflexivity.
Defined.

(** ** [get_weather_data] *)

Section Fetcher.

Variable pyfloat : Type.
Variable urlopen : string -> string + exn.
Variable json_loads : string -> json pyfloat + exn.

(** X4.  Only [HTTPError] is caught around [urlopen]: any other exception
    (a host that cannot be reached, a malformed URL) leaves
    [get_weather_data] as it is, after the one call, with no exit message
    and no body read. *)
Theorem other_fetch_errors_propagate (query_url : string) (e : exn) :
  urlopen query_url = inr e ->
  (forall code, e <> HTTPError code) ->
  get_weather_data urlopen json_loads query_url = ([Urlopen query_url], Raised e).
Proof.
  intros H N. unfold get_weather_data. rewrite H.
  destruct e; try reflexivity. now destruct (N code).
Qed.

(** X5.  Only [JSONDecodeError] is caught around [json.loads]: any other
    exception it raises (a body that is not valid UTF-8) leaves
    [get_weather_data] uncaught, without the message about an unreadable
    response. *)
Theorem other_decode_errors_propagate (query_url data : string) (e : exn) :
  urlopen query_url = inl data ->
  json_loads data = inr e ->
  e <> JSONDecodeError ->
  get_weather_data urlopen json_loads query_url =
    ([Urlopen query_url; ResponseRead; JsonLoads data], Raised e).
Proof.
  intros H L N. unfold get_weather_data. rewrite H, L.
  destruct e; try reflexivity. now destruct N.
Qed.

(** X6.  However the call ends, [get_weather_data] sends exactly one
    request, for the URL it was given, and writes nothing: no text and no
    colour change. *)
Theorem one_request_no_output (query_url : string) :
  requests (fst (get_weather_data urlopen json_loads query_url)) = [query_url] /\
  printed (fst (get_weather_data urlopen json_loads query_url)) = EmptyString /\
  colours (fst (get_weather_data urlopen json_loads query_url)) = [].
Proof.
  unfold get_weather_data.
  destruct (urlopen query_url) as [data|e].
  - destruct (json_loads data) as [v|e]; [|destruct e];
      (split; [reflexivity|split; reflexivity]).
  - destruct e; try (split; [reflexivity|split; reflexivity]).
    destruct (code =? 401)%Z; [split; [reflexivity|split; reflexivity]|].
    destruct (code =? 404)%Z; (split; [reflexivity|split; reflexivity]).
Qed.

(** X7.  Every exit of [get_weather_data] has one of four causes, and the
    message tells which: status 401, status 404, another HTTP error status
    (the message then holds the number), or a body that [json.loads]
    rejects. *)
Theorem exit_has_a_cause (query_url msg : string) :
  snd (get_weather_data urlopen json_loads query_url) = Exited msg ->
  (urlopen query_url = inr (HTTPError 401) /\
   msg = "Access denied.  Check your API key.") \/
  (urlopen query_url = inr (HTTPError 404) /\
   msg = "Can't find weather data for this city.") \/
  (exists code, urlopen query_url = inr (HTTPError code) /\
                code <> 401%Z /\ code <> 404%Z /\
                msg = "Something went wrong... (" ++ str_int code ++ ")") \/
  (exists data, urlopen query_url = inl data /\
                json_loads data = inr JSONDecodeError /\
                msg = "Couldn't read the server response.").
Proof.
  unfold get_weather_data.
  destruct (urlopen query_url) as [data|e].
  - destruct (json_loads data) as [v|e] eqn:L; [discriminate|].
    destruct e; cbn; try discriminate.
    intros H. injection H as <-. right; right; right.
    exists data. repeat split; auto.
  - destruct e; cbn; try discriminate.
    destruct (Z.eqb_spec code 401) as [->|N1].
    + cbn. intros H. injection H as <-. left. split; reflexivity.
    + destruct (Z.eqb_spec code 404) as [->|N2].
      * cbn. intros H. injection H as <-. right; left. split; reflexivity.
      * cbn. intros H. injection H as <-. right; right; left.
        exists code. repeat split; auto.
Qed.

End Fetcher.

Lemma other_fetch_errors_propagate_witness :
  unreachable "http://example.org" = inr (OtherError "URLError") /\
  (forall code, OtherError "URLError" <> HTTPError code) /\
  get_weather_data unreachable strict_loads "http://example.org" =
    ([Urlopen "http://example.org"], Raised (OtherError "URLError")).
Proof.
  split; [reflexivity|]. split; [discriminate|].
  apply (other_fetch_errors_propagate demo_float unreachable strict_loads
           "http://example.org" (OtherError "URLError"));
    [reflexivity | discriminate].
Defined.

Lemma other_decode_errors_propagate_witness :
  answers_html "http://example.org" = inl html_page /\
  undecodable html_page = inr (OtherError "UnicodeDecodeError") /\
  OtherError "UnicodeDecodeError" <> JSONDecodeError /\
  get_weather_data answers_html undecodable "http://example.org" =
    ([Urlopen "http://example.org"; ResponseRead; JsonLoads html_page],
     Raised (OtherError "UnicodeDecodeError")).
Proof.
  split; [reflexivity|]. split; [reflexivity|]. split; [discriminate|].
  apply (other_decode_errors_propagate demo_float answers_html undecodable
           "http://example.org" html_page (OtherError "UnicodeDecodeError"));
    [reflexivity | reflexivity | discriminate].
Defined.

Lemma exit_has_a_cause_witness :
  snd (get_weather_data unavailable strict_loads "http://example.org") =
    Exited "Something went wrong... (503)" /\
  ((unavailable "http://example.org" = inr (HTTPError 401) /\
    "Something went wrong... (503)" = "Access denied.  Check your API key.") \/
   (unavailable "http://example.org" = inr (HTTPError 404) /\
    "Something went wrong... (503)" = "Can't find weather data for this city.") \/
   (exists code, unavailable "http://example.org" = inr (HTTPError code) /\
                 code <> 401%Z /\ code <> 404%Z /\
                 "Something went wrong... (503)" =
                   "Something went wrong... (" ++ str_int code ++ ")") \/
   (exists data, unavailable "http://example.org" = inl data /\
                 strict_loads data = inr JSONDecodeError /\
                 "Something went wrong... (503)" =
                   "Couldn't read the server response.")).
Proof.
  split; [reflexivity|].
  apply (exit_has_a_cause demo_float unavailable strict_loads
           "http://example.org" "Something went wrong... (503)").
  reflexivity.
Defined.

(** ** [display_weather_info] *)

Lemma py_len_app (a b : string) : py_len (a ++ b) = py_len a + py_len b.
Proof.
  induction a as [|c a IH]; cbn [append py_len]; [reflexivity|].
  rewrite IH. lia.
Qed.

Lemma py_len_spaces (n : nat) : py_len (spaces n) = n.
Proof. induction n as [|n IH]; cbn; [reflexivity | now rewrite IH]. Qed.

Lemma py_len_center (width : nat) (s : string) :
  py_len (center width s) = Nat.max width (py_len s).
Proof.
  unfold center. rewrite !py_len_app, !py_len_spaces.
  pose proof (Nat.Div0.mul_div_le (width - py_len s) 2).
  lia.
Qed.

Section Line.

Variable pyfloat : Type.
Variable float_str : pyfloat -> string.
Variable float_int : pyfloat -> option Z.
Variable container_str : json pyfloat -> string.
Variable unicode_capitalize : string -> string.
Variable PADDING : nat.

(** X8.  The line for a response that has the five fields, with a text as
    name and as description: reverse video, the name centred, reset, the
    colour of the code, a tab and the capitalized description centred and
    followed by a blank, reset, and the temperature between brackets with
    the degree literal and the unit letter, ended by a newline.  The run
    returns. *)
Theorem line_of_a_complete_response
  (weather_data entry weather_id temperature main_object sys_object country
     : json pyfloat)
  (others : list (json pyfloat)) (name description : string) (imperial : bool) :
  getitem weather_data "name" = Returned (JStr name) ->
  getitem weather_data "weather" = Returned (JArr (entry :: others)) ->
  getitem entry "id" = Returned weather_id ->
  getitem entry "description" = Returned (JStr description) ->
  getitem weather_data "main" = Returned main_object ->
  getitem main_object "temp" = Returned temperature ->
  getitem weather_data "sys" = Returned sys_object ->
  getitem sys_object "country" = Returned country ->
  display_weather_info float_str float_int container_str unicode_capitalize
                       PADDING weather_data imperial =
    ([ChangeColour REVERSE;
      Print (center PADDING name);
      ChangeColour RESET;
      ChangeColour (select_colour float_int weather_id);
      Print (TAB ++ center PADDING (capitalize unicode_capitalize description) ++ " ");
      ChangeColour RESET;
      Print ("(" ++ py_str float_str container_str temperature ++ DEGREE_LITERAL ++
             (if imperial then "F" else "C") ++ ")" ++ NEWLINE)],
     Returned tt).
Proof.
  intros Hn Hw Hi Hd Hm Ht Hs Hc.
  rewrite display_phases. unfold read_fields.
  rewrite Hn, Hw. cbn [obind getitem0]. rewrite Hi, Hd, Hm.
  cbn [obind]. rewrite Ht, Hs. cbn [obind]. rewrite Hc. cbn [obind].
  rewrite (print_fields_full _ _ _ _ _ _ _ _ (center PADDING name)
             (capitalize unicode_capitalize description)) by reflexivity.
  cbn [f_city f_weather_id f_temperature f_weather_description].
  rewrite append_empty_r, !append_assoc_s. reflexivity.
Qed.

(** X9.  The width of that line: name and description each take [PADDING]
    columns, or their own length when longer (nothing is cut), and the
    rest takes eight characters besides the temperature. *)
Theorem width_of_the_line
  (weather_data entry weather_id temperature main_object sys_object country
     : json pyfloat)
  (others : list (json pyfloat)) (name description : string) (imperial : bool) :
  getitem weather_data "name" = Returned (JStr name) ->
  getitem weather_data "weather" = Returned (JArr (entry :: others)) ->
  getitem entry "id" = Returned weather_id ->
  getitem entry "description" = Returned (JStr description) ->
  getitem weather_data "main" = Returned main_object ->
  getitem main_object "temp" = Returned temperature ->
  getitem weather_data "sys" = Returned sys_object ->
  getitem sys_object "country" = Returned country ->
  py_len (printed (fst (display_weather_info float_str float_int container_str
                          unicode_capitalize PADDING weather_data imperial))) =
    Nat.max PADDING (py_len name) +
    Nat.max PADDING (py_len (capitalize unicode_capitalize description)) +
    py_len (py_str float_str container_str temperature) + 8.
Proof.
  intros Hn Hw Hi Hd Hm Ht Hs Hc.
  rewrite display_phases. unfold read_fields.
  rewrite Hn, Hw. cbn [obind getitem0]. rewrite Hi, Hd, Hm.
  cbn [obind]. rewrite Ht, Hs. cbn [obind]. rewrite Hc. cbn [obind].
  rewrite (print_fields_full _ _ _ _ _ _ _ _ (center PADDING name)
             (capitalize unicode_capitalize description)) by reflexivity.
  cbn [f_city f_weather_id f_temperature f_weather_description fst printed].
  rewrite !py_len_app, !py_len_center.
  change (py_len EmptyString) with 0.
  change (py_len TAB) with 1. change (py_len NEWLINE) with 1.
  change (py_len " ") with 1. change (py_len "(") with 1.
  change (py_len ")") with 1. change (py_len DEGREE_LITERAL) with 2.
  replace (py_len (if imperial then "F" else "C")) with 1
    by (destruct imperial; reflexivity).
  lia.
Qed.

(** X10.  A run that returns has read the id of the first weather entry and
    changes the colour four times: reverse, reset, the colour
    [select_colour] gives for that id, reset.  The terminal is left in the
    reset style. *)
Theorem completed_run_ends_reset (weather_data : json pyfloat) (imperial : bool) :
  snd (display_weather_info float_str float_int container_str unicode_capitalize
         PADDING weather_data imperial) = Returned tt ->
  exists w entry weather_id,
    getitem weather_data "weather" = Returned w /\
    getitem0 w = Returned entry /\
    getitem entry "id" = Returned weather_id /\
    colours (fst (display_weather_info float_str float_int container_str
                    unicode_capitalize PADDING weather_data imperial)) =
      [REVERSE; RESET; select_colour float_int weather_id; RESET].
Proof.
  rewrite display_phases. unfold read_fields.
  destruct (getitem weather_data "name") as [city| |]; cbn [obind snd];
    try discriminate.
  destruct (getitem weather_data "weather") as [w| |] eqn:Hw; cbn [obind snd];
    try discriminate.
  destruct (getitem0 w) as [entry| |] eqn:H0; cbn [obind snd]; try discriminate.
  destruct (getitem entry "id") as [weather_id| |] eqn:Hid; cbn [obind snd];
    try discriminate.
  destruct (getitem entry "description") as [desc| |]; cbn [obind snd];
    try discriminate.
  destruct (getitem weather_data "main") as [m| |]; cbn [obind snd];
    try discriminate.
  destruct (getitem m "temp") as [temp| |]; cbn [obind snd]; try discriminate.
  destruct (getitem weather_data "sys") as [s| |]; cbn [obind snd];
    try discriminate.
  destruct (getitem s "country") as [country| |]; cbn [obind snd];
    try discriminate.
  unfold print_fields.
  cbn [f_city f_weather_id f_weather_description f_temperature].
  destruct (format_center float_str PADDING city); cbn; try discriminate.
  destruct (capitalize_method unicode_capitalize desc); cbn; try discriminate.
  intros _. exists w, entry, weather_id. repeat split; auto.
Qed.

(** X11.  A name that is [null], a list or an object cannot be formatted:
    when the five reads succeed on such a response, the run ends with a
    [TypeError] after reverse video was switched on and before anything was
    written or reset. *)
Theorem unformattable_name_stays_reversed
  (weather_data : json pyfloat) (r : fields_read pyfloat) (imperial : bool) :
  read_fields weather_data = Returned r ->
  (f_city r = JNull \/ (exists items, f_city r = JArr items) \/
   (exists fields, f_city r = JObj fields)) ->
  display_weather_info float_str float_int container_str unicode_capitalize
                       PADDING weather_data imperial =
    ([ChangeColour REVERSE], Raised TypeError).
Proof.
  intros Hr Hc. rewrite display_phases, Hr. unfold print_fields.
  destruct Hc as [-> | [(items & ->) | (fields & ->)]]; reflexivity.
Qed.

(** X12.  A description that is no text has no [capitalize]: when the reads
    succeed and the name can be formatted, the run ends with an
    [AttributeError] after the name was written and the colour of the code
    selected; the description, the reset and the temperature are not
    written. *)
Theorem bad_description_cuts_the_line
  (weather_data : json pyfloat) (r : fields_read pyfloat) (imperial : bool)
  (text : string) :
  read_fields weather_data = Returned r ->
  format_center float_str PADDING (f_city r) = Returned text ->
  (forall s, f_weather_description r <> JStr s) ->
  display_weather_info float_str float_int container_str unicode_capitalize
                       PADDING weather_data imperial =
    ([ChangeColour REVERSE; Print text; ChangeColour RESET;
      ChangeColour (select_colour float_int (f_weather_id r))],
     Raised AttributeError).
Proof.
  intros Hr Hc Hd. rewrite display_phases, Hr. unfold print_fields.
  rewrite Hc.
  destruct (f_weather_description r) eqn:E; cbn; rewrite ?append_empty_r;
    try reflexivity.
  now destruct (Hd s).
Qed.

(** X13.  The table read backwards, for an integer code: each colour is
    selected on its ranges only.  Blue serves rain and atmosphere, white
    serves snow and clouds, yellow is the code 800 alone, and reverse video
    is never selected. *)
Theorem colour_tells_the_range (code : Z) :
  (select_colour float_int (JInt code) = RED <-> (200 <= code < 300)%Z) /\
  (select_colour float_int (JInt code) = CYAN <-> (300 <= code < 400)%Z) /\
  (select_colour float_int (JInt code) = BLUE <->
     (500 <= code < 600 \/ 700 <= code < 800)%Z) /\
  (select_colour float_int (JInt code) = WHITE <->
     (600 <= code < 700 \/ 801 <= code < 900)%Z) /\
  (select_colour float_int (JInt code) = YELLOW <-> code = 800%Z) /\
  (select_colour float_int (JInt code) = RESET <->
     (code < 200 \/ 400 <= code < 500 \/ 900 <= code)%Z) /\
  select_colour float_int (JInt code) <> REVERSE.
Proof.
  rewrite select_colour_int.
  assert (R : (code < 200 \/ 200 <= code < 300 \/ 300 <= code < 400 \/
               400 <= code < 500 \/ 500 <= code < 600 \/ 600 <= code < 700 \/
               700 <= code < 800 \/ code = 800 \/ 801 <= code < 900 \/
               900 <= code)%Z) by lia.
  destruct R as [R|[R|[R|[R|[R|[R|[R|[R|[R|R]]]]]]]]];
    settle_comparisons; cbn [andb];
    repeat split; intros; try discriminate; try lia; try reflexivity.
Qed.

End Line.

Lemma line_of_a_complete_response_witness :
  getitem (JObj storm_fields) "name" = Returned (JStr "Quito") /\
  getitem (JObj storm_fields) "weather" =
    Returned (JArr [storm_entry; JObj [("id", JInt 500); ("description", JStr
        "light rain")]]) /\
  getitem storm_entry "id" = Returned (JInt 201) /\
  getitem storm_entry "description" = Returned (JStr "thunderstorm with rain") /\
  getitem (JObj storm_fields) "main" = Returned (JObj [("temp", JInt 14)]) /\
  getitem (JObj [("temp", @JInt demo_float 14)]) "temp" = Returned (JInt 14) /\
  getitem (JObj storm_fields) "sys" = Returned (JObj [("country", JStr "EC")]) /\
  getitem (JObj [("country", @JStr demo_float "EC")]) "country" = Returned (JStr "EC") /\
  display_weather_info demo_float_str demo_float_int demo_container_str
                       demo_capitalize demo_padding (JObj storm_fields) true =
    ([ChangeColour REVERSE;
      Print (center demo_padding "Quito");
      ChangeColour RESET;
      ChangeColour (select_colour demo_float_int (JInt 201));
      Print (TAB ++ center demo_padding
                      (capitalize demo_capitalize "thunderstorm with rain") ++ " ");
      ChangeColour RESET;
      Print ("(" ++ py_str demo_float_str demo_container_str (JInt 14) ++
             DEGREE_LITERAL ++ "F" ++ ")" ++ NEWLINE)],
     Returned tt).
Proof.
  repeat (split; [reflexivity|]).
  apply (line_of_a_complete_response demo_float demo_float_str demo_float_int
           demo_container_str demo_capitalize demo_padding
           (JObj storm_fields) storm_entry (JInt 201) (JInt 14)
           (JObj [("temp", JInt 14)]) (JObj [("country", JStr "EC")]) (JStr "EC")
           [JObj [("id", JInt 500); ("description", JStr "light rain")]]
           "Quito" "thunderstorm with rain" true); reflexivity.
Defined.

Lemma width_of_the_line_witness :
  getitem (JObj storm_fields) "name" = Returned (JStr "Quito") /\
  getitem (JObj storm_fields) "weather" =
    Returned (JArr [storm_entry; JObj [("id", JInt 500); ("description", JStr
        "light rain")]]) /\
  getitem storm_entry "id" = Returned (JInt 201) /\
  getitem storm_entry "description" = Returned (JStr "thunderstorm with rain") /\
  getitem (JObj storm_fields) "main" = Returned (JObj [("temp", JInt 14)]) /\
  getitem (JObj [("temp", @JInt demo_float 14)]) "temp" = Returned (JInt 14) /\
  getitem (JObj storm_fields) "sys" = Returned (JObj [("country", JStr "EC")]) /\
  getitem (JObj [("country", @JStr demo_float "EC")]) "country" = Returned (JStr "EC") /\
  py_len (printed (fst (display_weather_info demo_float_str demo_float_int
                          demo_container_str demo_capitalize demo_padding
                          (JObj storm_fields) true))) =
    Nat.max demo_padding (py_len "Quito") +
    Nat.max demo_padding (py_len (capitalize demo_capitalize "thunderstorm with rain")) +
    py_len (py_str demo_float_str demo_container_str (@JInt demo_float 14)) + 8.
Proof.
  repeat (split; [reflexivity|]).
  apply (width_of_the_line demo_float demo_float_str demo_float_int
           demo_container_str demo_capitalize demo_padding
           (JObj storm_fields) storm_entry (JInt 201) (JInt 14)
           (JObj [("temp", JInt 14)]) (JObj [("country", JStr "EC")]) (JStr "EC")
           [JObj [("id", JInt 500); ("description", JStr "light rain")]]
           "Quito" "thunderstorm with rain" true); reflexivity.
Defined.

Lemma completed_run_ends_reset_witness :
  snd (demo_present (JObj storm_fields) false) = Returned tt /\
  exists w entry weather_id,
    getitem (JObj storm_fields) "weather" = Returned w /\
    getitem0 w = Returned entry /\
    getitem entry "id" = Returned weather_id /\
    colours (fst (display_weather_info demo_float_str demo_float_int
                    demo_container_str demo_capitalize demo_padding
                    (JObj storm_fields) false)) =
      [REVERSE; RESET; select_colour demo_float_int weather_id; RESET].
Proof.
  split; [reflexivity|].
  apply (completed_run_ends_reset demo_float demo_float_str demo_float_int
           demo_container_str demo_capitalize demo_padding
           (JObj storm_fields) false).
  reflexivity.
Defined.

Lemma unformattable_name_stays_reversed_witness :
  read_fields (JObj nameless_fields) =
    Returned (Fields JNull (JInt 201) (JStr "thunderstorm with rain")
                     (JInt 14) (JStr "EC")) /\
  display_weather_info demo_float_str demo_float_int demo_container_str
                       demo_capitalize demo_padding (JObj nameless_fields) false =
    ([ChangeColour REVERSE], Raised TypeError).
Proof.
  split; [reflexivity|].
  apply (unformattable_name_stays_reversed demo_float demo_float_str
           demo_float_int demo_container_str demo_capitalize demo_padding
           (JObj nameless_fields)
           (Fields JNull (JInt 201) (JStr "thunderstorm with rain")
                   (JInt 14) (JStr "EC"))
           false);
    [reflexivity | left; reflexivity].
Defined.

Lemma bad_description_cuts_the_line_witness :
  read_fields (JObj undescribed_fields) =
    Returned (Fields (JStr "Quito") (JInt 201) (JInt 7) (JInt 14) (JStr "EC")) /\
  format_center demo_float_str demo_padding (@JStr demo_float "Quito") =
    Returned (center demo_padding "Quito") /\
  (forall s, @JInt demo_float 7 <> JStr s) /\
  display_weather_info demo_float_str demo_float_int demo_container_str
                       demo_capitalize demo_padding (JObj undescribed_fields) false =
    ([ChangeColour REVERSE; Print (center demo_padding "Quito"); ChangeColour RESET;
      ChangeColour (select_colour demo_float_int (JInt 201))],
     Raised AttributeError).
Proof.
  split; [reflexivity|]. split; [reflexivity|]. split; [discriminate|].
  apply (bad_description_cuts_the_line demo_float demo_float_str
           demo_float_int demo_container_str demo_capitalize demo_padding
           (JObj undescribed_fields)
           (Fields (JStr "Quito") (JInt 201) (JInt 7) (JInt 14) (JStr "EC"))
           false (center demo_padding "Quito"));
    [reflexivity | reflexivity | discriminate].
Defined.

(** ** The whole run *)

Lemma printed_app (a b : list event) :
  printed (a ++ b) = printed a ++ printed b.
Proof.
  induction a as [|e a IH]; cbn [printed app]; [reflexivity|].
  destruct e; cbn [printed]; rewrite ?IH, ?append_assoc_s; reflexivity.
Qed.

Lemma colours_app (a b : list event) :
  colours (a ++ b) = (colours a ++ colours b)%list.
Proof.
  induction a as [|e a IH]; cbn [colours app]; [reflexivity|].
  destruct e; cbn [colours app]; rewrite ?IH; reflexivity.
Qed.

Section Run.

Variable pyfloat : Type.
Variable float_str : pyfloat -> string.
Variable float_int : pyfloat -> option Z.
Variable container_str : json pyfloat -> string.
Variable unicode_capitalize : string -> string.
Variable PADDING : nat.
Variable secrets : config.
Variable urlopen : string -> string + exn.
Variable json_loads : string -> json pyfloat + exn.

Lemma display_never_exits (weather_data : json pyfloat) (imperial : bool)
  (msg : string) :
  snd (display_weather_info float_str float_int container_str unicode_capitalize
         PADDING weather_data imperial) <> Exited msg.
Proof.
  rewrite display_phases.
  destruct (read_fields weather_data) as [r|e|m] eqn:E; cbn [snd];
    try discriminate.
  - unfold print_fields.
    destruct (format_center float_str PADDING (f_city r)) eqn:F;
      cbn; try discriminate.
    + destruct (capitalize_method unicode_capitalize (f_weather_description r)) eqn:C;
        cbn; try discriminate.
      destruct (f_weather_description r); discriminate C.
    + destruct (f_city r); discriminate F.
  - now apply read_fields_not_exited in E.
Qed.

(** X14.  With a key in [secrets.ini], a body from the server and a value
    from [json.loads], the run is the four steps in order (configuration
    read, one request for the built URL, body read, body decoded) followed
    by the presentation of the decoded value under the same flag, and it
    ends as the presentation ends. *)
Theorem run_of_a_good_answer
  (user_args : cli_args) (section : list (string * string))
  (api_key data : string) (weather_data : json pyfloat) :
  assoc "openweather" secrets = Some section ->
  assoc "api_key" section = Some api_key ->
  urlopen (weather_url (join " " (city user_args)) (imperial user_args) api_key)
    = inl data ->
  json_loads data = inl weather_data ->
  main float_str float_int container_str unicode_capitalize PADDING
       secrets urlopen json_loads user_args =
    (([ConfigRead "secrets.ini";
       Urlopen (weather_url (join " " (city user_args)) (imperial user_args) api_key);
       ResponseRead; JsonLoads data] ++
      fst (display_weather_info float_str float_int container_str
             unicode_capitalize PADDING weather_data (imperial user_args)))%list,
     snd (display_weather_info float_str float_int container_str
            unicode_capitalize PADDING weather_data (imperial user_args))).
Proof.
  intros Hs Hk Hu Hl. unfold main.
  rewrite (build_weather_query_returns _ _ _ _ _ Hs Hk).
  cbn [bind]. unfold get_weather_data. rewrite Hu, Hl.
  cbn [bind tell ret app].
  destruct (display_weather_info float_str float_int container_str
              unicode_capitalize PADDING weather_data (imperial user_args))
    as [t o].
  reflexivity.
Qed.

(** X15.  [sys.exit] comes before any output: when the run ends with an
    exit message, no text was written and no colour was changed. *)
Theorem exit_comes_before_output (user_args : cli_args) (msg : string) :
  snd (main float_str float_int container_str unicode_capitalize PADDING
            secrets urlopen json_loads user_args) = Exited msg ->
  printed (fst (main float_str float_int container_str unicode_capitalize PADDING
                     secrets urlopen json_loads user_args)) = EmptyString /\
  colours (fst (main float_str float_int container_str unicode_capitalize PADDING
                     secrets urlopen json_loads user_args)) = [].
Proof.
  unfold main, build_weather_query, _get_api_key.
  destruct (assoc "openweather" secrets) as [section|]; [|discriminate].
  destruct (assoc "api_key" section) as [api_key|]; [|discriminate].
  cbn [tell ret raise bind app].
  set (url := BASE_WEATHER_API_URL ++ _).
  pose proof (one_request_no_output pyfloat urlopen json_loads url) as (_ & P & C).
  destruct (get_weather_data urlopen json_loads url) as [t [wd|e|m]];
    cbn [fst] in P, C; cbn [bind fst snd app].
  - pose proof (display_never_exits wd (imperial user_args) msg) as N.
    destruct (display_weather_info float_str float_int container_str
                unicode_capitalize PADDING wd (imperial user_args)) as [t' o].
    cbn [snd] in *. intros H. destruct o; cbn in H; congruence.
  - discriminate.
  - intros _. cbn [printed colours]. split; assumption.
Qed.

End Run.

Lemma run_of_a_good_answer_witness :
  assoc "openweather" demo_secrets = Some demo_section /\
  assoc "api_key" demo_section = Some demo_key /\
  answers_storm (weather_url (join " " ["Quito"]) false demo_key) = inl storm_body /\
  loads_storm storm_body = inl (JObj storm_fields) /\
  main demo_float_str demo_float_int demo_container_str demo_capitalize
       demo_padding demo_secrets answers_storm loads_storm (Namespace ["Quito"] false) =
    (([ConfigRead "secrets.ini";
       Urlopen (weather_url (join " " ["Quito"]) false demo_key);
       ResponseRead; JsonLoads storm_body] ++
      fst (display_weather_info demo_float_str demo_float_int demo_container_str
             demo_capitalize demo_padding (JObj storm_fields) false))%list,
     snd (display_weather_info demo_float_str demo_float_int demo_container_str
            demo_capitalize demo_padding (JObj storm_fields) false)).
Proof.
  repeat (split; [reflexivity|]).
  apply (run_of_a_good_answer demo_float demo_float_str demo_float_int
           demo_container_str demo_capitalize demo_padding demo_secrets
           answers_storm loads_storm (Namespace ["Quito"] false)
           demo_section demo_key storm_body (JObj storm_fields)); reflexivity.
Defined.

Lemma exit_comes_before_output_witness :
  snd (main demo_float_str demo_float_int demo_container_str demo_capitalize
            demo_padding demo_secrets unavailable strict_loads
            (Namespace ["Quito"] false)) = Exited "Something went wrong... (503)" /\
  printed (fst (main demo_float_str demo_float_int demo_container_str
                     demo_capitalize demo_padding demo_secrets unavailable
                     strict_loads (Namespace ["Quito"] false))) = EmptyString /\
  colours (fst (main demo_float_str demo_float_int demo_container_str
                     demo_capitalize demo_padding demo_secrets unavailable
                     strict_loads (Namespace ["Quito"] false))) = [].
Proof.
  split; [reflexivity|].
  apply (exit_comes_before_output demo_float demo_float_str demo_float_int
           demo_container_str demo_capitalize demo_padding demo_secrets
           unavailable strict_loads (Namespace ["Quito"] false)
           "Something went wrong... (503)").
  reflexivity.
Defined.
